(** * Pionex dashboard back end: request signing, upstream proxy and the
      manual bot store

    A shallow embedding of [server.py], [api/index.py] and
    [api/positions.py].

    Conventions of the embedding.
    - A Python [str] is a Rocq [string] holding the UTF-8 encoding of the
      text, so that [s.encode('utf-8')] is the list of the string's bytes,
      concatenation is [++] and the order on strings (by code point) is the
      bytewise lexicographic order [String.compare].
    - Python [int]s are [Z]; [bytes] are lists of [Z] in [0, 256).
    - [hmac], [hashlib.sha256] and [hexdigest] are written out (FIPS 180-4,
      RFC 2104) so that signatures can be computed.
    - The wall clock and the network are the world the program runs in: a
      [World] gives the successive readings of [int(time.time() * 1000)]
      and the reply to each upstream call; a [State] counts the clock
      readings, logs the upstream calls and holds [MANUAL_BOT_DATA].
    - [json.loads] and [json.dumps] are taken as given, in a [JsonLib]. *)

From Stdlib Require Import ZArith List String Ascii Bool Lia.
From Stdlib Require Import DecimalString Permutation Sorted.
Import ListNotations.

Set Warnings "-register-all".

Local Open Scope string_scope.
Local Open Scope Z_scope.

(** ** SHA-256 on 32-bit words held in [Z] *)

Module SHA256.

Definition w32 (x : Z) : Z := x mod 2 ^ 32.

Definition add32 (x y : Z) : Z := w32 (x + y).

Definition rotr (n x : Z) : Z :=
  Z.lor (Z.shiftr x n) (w32 (Z.shiftl x (32 - n))).

Definition not32 (x : Z) : Z := 2 ^ 32 - 1 - x.

Definition ch (x y z : Z) : Z :=
  Z.lxor (Z.land x y) (Z.land (not32 x) z).

Definition maj (x y z : Z) : Z :=
  Z.lxor (Z.lxor (Z.land x y) (Z.land x z)) (Z.land y z).

Definition bsig0 (x : Z) : Z :=
  Z.lxor (Z.lxor (rotr 2 x) (rotr 13 x)) (rotr 22 x).

Definition bsig1 (x : Z) : Z :=
  Z.lxor (Z.lxor (rotr 6 x) (rotr 11 x)) (rotr 25 x).

Definition ssig0 (x : Z) : Z :=
  Z.lxor (Z.lxor (rotr 7 x) (rotr 18 x)) (Z.shiftr x 3).

Definition ssig1 (x : Z) : Z :=
  Z.lxor (Z.lxor (rotr 17 x) (rotr 19 x)) (Z.shiftr x 10).

(** The first sixty-four primes. *)
Definition primes : list Z :=
  [ 2; 3; 5; 7; 11; 13; 17; 19; 23; 29; 31; 37; 41; 43; 47; 53; 59; 61; 67;
    71; 73; 79; 83; 89; 97; 101; 103; 107; 109; 113; 127; 131; 137; 139; 149;
    151; 157; 163; 167; 173; 179; 181; 191; 193; 197; 199; 211; 223; 227; 229;
    233; 239; 241; 251; 257; 263; 269; 271; 277; 281; 283; 293; 307; 311 ].

(** Integer cube root, one bit at a time from bit [n - 1] down. *)
Fixpoint cube_root_bits (n : nat) (x r : Z) : Z :=
  match n with
  | O => r
  | S k =>
      let c := r + 2 ^ Z.of_nat k in
      cube_root_bits k x (if c * c * c <=? x then c else r)
  end.

(** The round constants are the first 32 bits of the fractional parts of
    the cube roots of the primes; the initial hash value, of the square
    roots of the first eight. *)
Definition round_constants : list Z :=
  Eval vm_compute in
    map (fun p => w32 (cube_root_bits 40 (p * 2 ^ 96) 0)) primes.

Definition initial_hash : list Z :=
  Eval vm_compute in
    map (fun p => w32 (Z.sqrt (p * 2 ^ 64))) (firstn 8 primes).

(** Big-endian encoding of [x] on [n] bytes. *)
Fixpoint be_bytes (n : nat) (x : Z) : list Z :=
  match n with
  | O => []
  | S k => Z.shiftr x (8 * Z.of_nat k) mod 256 :: be_bytes k x
  end.

Fixpoint be_word (bs : list Z) (acc : Z) : Z :=
  match bs with
  | [] => acc
  | b :: rest => be_word rest (acc * 256 + b)
  end.

(** Padding: a [0x80] byte, zero bytes up to 56 modulo 64, and the bit
    length on eight bytes. *)
Definition pad (msg : list Z) : list Z :=
  let len := Z.of_nat (List.length msg) in
  let zeros := Z.to_nat ((55 - len) mod 64) in
  msg ++ 0x80 :: repeat 0 zeros ++ be_bytes 8 (8 * len).

(** The sixteen words of a 64-byte block. *)
Fixpoint words_of (n : nat) (bs : list Z) : list Z :=
  match n with
  | O => []
  | S k => be_word (firstn 4 bs) 0 :: words_of k (skipn 4 bs)
  end.

(** Message schedule, kept newest word first: [rev_w] holds
    [W(t-1), W(t-2), ...]. *)
Fixpoint extend (n : nat) (rev_w : list Z) : list Z :=
  match n with
  | O => rev_w
  | S k =>
      let wt := add32 (add32 (ssig1 (nth 1 rev_w 0)) (nth 6 rev_w 0))
                      (add32 (ssig0 (nth 14 rev_w 0)) (nth 15 rev_w 0)) in
      extend k (wt :: rev_w)
  end.

Definition schedule (block : list Z) : list Z :=
  rev (extend 48 (rev (words_of 16 block))).

Record regs := Regs { ra : Z; rb : Z; rc : Z; rd : Z;
                      re : Z; rf : Z; rg : Z; rh : Z }.

Definition regs_of (h : list Z) : regs :=
  Regs (nth 0 h 0) (nth 1 h 0) (nth 2 h 0) (nth 3 h 0)
       (nth 4 h 0) (nth 5 h 0) (nth 6 h 0) (nth 7 h 0).

Definition list_of (r : regs) : list Z :=
  [ra r; rb r; rc r; rd r; re r; rf r; rg r; rh r].

Definition round (r : regs) (kw : Z * Z) : regs :=
  let t1 := add32 (add32 (add32 (rh r) (bsig1 (re r)))
                         (add32 (ch (re r) (rf r) (rg r)) (fst kw)))
                  (snd kw) in
  let t2 := add32 (bsig0 (ra r)) (maj (ra r) (rb r) (rc r)) in
  Regs (add32 t1 t2) (ra r) (rb r) (rc r) (add32 (rd r) t1) (re r) (rf r) (rg r).

Definition compress (h : list Z) (block : list Z) : list Z :=
  let r := fold_left round (combine round_constants (schedule block)) (regs_of h) in
  map (fun p => add32 (fst p) (snd p)) (combine h (list_of r)).

Fixpoint blocks (n : nat) (bs : list Z) (h : list Z) : list Z :=
  match n with
  | O => h
  | S k => blocks k (skipn 64 bs) (compress h (firstn 64 bs))
  end.

(** [hashlib.sha256(msg).digest()] *)
Definition digest (msg : list Z) : list Z :=
  let p := pad msg in
  flat_map (be_bytes 4) (blocks (List.length p / 64) p initial_hash).

End SHA256.

(** ** HMAC (RFC 2104) with SHA-256, as [hmac.new(key, msg, hashlib.sha256)] *)

Module HMAC.

Definition block_size : nat := 64.

Definition block_key (key : list Z) : list Z :=
  let k := if (block_size <? List.length key)%nat then SHA256.digest key else key in
  k ++ repeat 0 (block_size - List.length k).

Definition xor_pad (c : Z) (k : list Z) : list Z := map (Z.lxor c) k.

Definition digest (key msg : list Z) : list Z :=
  let k := block_key key in
  SHA256.digest (xor_pad 0x5c k ++ SHA256.digest (xor_pad 0x36 k ++ msg)).

End HMAC.

(** ** Bytes and text *)

(** [s.encode('utf-8')] *)
Definition encode_utf8 (s : string) : list Z :=
  map (fun c => Z.of_N (N_of_ascii c)) (list_ascii_of_string s).

Definition hex_digit (d : Z) : ascii :=
  ascii_of_N (Z.to_N (if d <? 10 then 48 + d else 87 + d)).

(** [bytes.hex()]: two lower-case digits per byte *)
Fixpoint hex (bs : list Z) : string :=
  match bs with
  | [] => EmptyString
  | b :: rest => String (hex_digit (b / 16)) (String (hex_digit (b mod 16)) (hex rest))
  end.

(** [hmac.new(key, msg, hashlib.sha256).hexdigest()] *)
Definition hmac_sha256_hexdigest (key msg : list Z) : string :=
  hex (HMAC.digest key msg).

(** [str(n)] for an [int] *)
Definition str_of_int (n : Z) : string := NilZero.string_of_int (Z.to_int n).

Definition byte_in (lo hi : N) (c : ascii) : bool :=
  ((lo <=? N_of_ascii c) && (N_of_ascii c <=? hi))%N.

(** A continuation byte [10xxxxxx] of UTF-8. *)
Definition is_continuation (c : ascii) : bool := byte_in 0x80 0xBF c.

(** The second byte that a three-byte and a four-byte sequence admit after
    the lead byte [a]: no overlong form, no surrogate, nothing above
    U+10FFFF. *)
Definition second_of_three (a b : ascii) : bool :=
  if byte_in 0xE0 0xE0 a then byte_in 0xA0 0xBF b
  else if byte_in 0xED 0xED a then byte_in 0x80 0x9F b
  else is_continuation b.

Definition second_of_four (a b : ascii) : bool :=
  if byte_in 0xF0 0xF0 a then byte_in 0x90 0xBF b
  else if byte_in 0xF4 0xF4 a then byte_in 0x80 0x8F b
  else is_continuation b.

(** [bytes.decode()] succeeds: the bytes are well-formed UTF-8; the text
    is then the string itself. *)
Fixpoint valid_utf8 (s : string) : bool :=
  match s with
  | EmptyString => true
  | String a rest =>
      if byte_in 0x00 0x7F a then valid_utf8 rest
      else
        match rest with
        | EmptyString => false
        | String b rest2 =>
            if byte_in 0xC2 0xDF a then is_continuation b && valid_utf8 rest2
            else
              match rest2 with
              | EmptyString => false
              | String c rest3 =>
                  if byte_in 0xE0 0xEF a then
                    second_of_three a b && is_continuation c && valid_utf8 rest3
                  else
                    match rest3 with
                    | EmptyString => false
                    | String d rest4 =>
                        byte_in 0xF0 0xF4 a && second_of_four a b
                        && is_continuation c && is_continuation d
                        && valid_utf8 rest4
                    end
              end
        end
  end.

(** The number of bytes of the character that begins [s]: the length of
    the well-formed sequence at its head, and 1 for a byte that begins
    none (in a [str] read from the environment such a byte stands as one
    character). *)
Definition char_width (s : string) : nat :=
  match s with
  | String a (String b rest2) =>
      if byte_in 0xC2 0xDF a && is_continuation b then 2%nat
      else
        match rest2 with
        | String c rest3 =>
            if byte_in 0xE0 0xEF a && second_of_three a b && is_continuation c
            then 3%nat
            else
              match rest3 with
              | String d _ =>
                  if byte_in 0xF0 0xF4 a && second_of_four a b
                     && is_continuation c && is_continuation d
                  then 4%nat else 1%nat
              | EmptyString => 1%nat
              end
        | EmptyString => 1%nat
        end
  | _ => 1%nat
  end.

(** The first [n] characters of [s], [pending] bytes of the current
    character being still to copy. *)
Fixpoint take_chars (n pending : nat) (s : string) : string :=
  match s with
  | EmptyString => EmptyString
  | String c rest =>
      match pending with
      | S p => String c (take_chars n p rest)
      | O =>
          match n with
          | O => EmptyString
          | S k => String c (take_chars k (Nat.pred (char_width s)) rest)
          end
      end
  end.

(** [s[:n]]: characters, not bytes. *)
Definition first_chars (n : nat) (s : string) : string := take_chars n 0 s.

(** ** Python values *)

(** Values of the query-parameter dictionaries: the routes put strings
    ([symbol], [type], a [limit] taken from the request) and the integer
    default [100] there; [None] marks an absent value. *)
Inductive pyval : Type :=
| PNone
| PBool (b : bool)
| PInt (n : Z)
| PStr (s : string).

(** [str(v)], as an f-string field formats it. *)
Definition py_str (v : pyval) : string :=
  match v with
  | PNone => "None"
  | PBool true => "True"
  | PBool false => "False"
  | PInt n => str_of_int n
  | PStr s => s
  end.

(** Parsed JSON.  A number with a fraction or an exponent is a binary
    float, held as the dyadic [m * 2 ^ e]; the specials [NaN] and
    [Infinity], which are not JSON, are left out. *)
Inductive json : Type :=
| JNull
| JBool (b : bool)
| JInt (n : Z)
| JFloat (m e : Z)
| JStr (s : string)
| JArr (items : list json)
| JObj (fields : list (string * json)).

(** Truth value of a string: [if s:] *)
Definition nonempty (s : string) : bool :=
  match s with EmptyString => false | String _ _ => true end.

(** Truth value of a parsed JSON value: [if v:] *)
Definition truthy (v : json) : bool :=
  match v with
  | JNull => false
  | JBool b => b
  | JInt n => negb (n =? 0)
  | JFloat m _ => negb (m =? 0)
  | JStr s => nonempty s
  | JArr items => match items with [] => false | _ :: _ => true end
  | JObj fields => match fields with [] => false | _ :: _ => true end
  end.

(** ** Dictionaries

    A [dict] is the list of its items in insertion order, with one item per
    key: that order is what [items()] hands to [sorted] and what
    [values()] lists.  Assigning to a key that is there replaces the value
    in place; assigning to a new key appends; [del] drops the key's item. *)

Section Dict.
Context {K V : Type} (eqb : K -> K -> bool).

Fixpoint dict_get (d : list (K * V)) (k : K) : option V :=
  match d with
  | [] => None
  | (k', v) :: rest => if eqb k k' then Some v else dict_get rest k
  end.

Definition dict_mem (d : list (K * V)) (k : K) : bool :=
  match dict_get d k with Some _ => true | None => false end.

Fixpoint dict_set (d : list (K * V)) (k : K) (v : V) : list (K * V) :=
  match d with
  | [] => [(k, v)]
  | (k', v') :: rest =>
      if eqb k k' then (k', v) :: rest else (k', v') :: dict_set rest k v
  end.

Fixpoint dict_del (d : list (K * V)) (k : K) : list (K * V) :=
  match d with
  | [] => []
  | (k', v') :: rest =>
      if eqb k k' then dict_del rest k else (k', v') :: dict_del rest k
  end.

Definition dict_keys (d : list (K * V)) : list K := map fst d.
Definition dict_values (d : list (K * V)) : list V := map snd d.
End Dict.

(** [d.get(k, default)] on a dictionary with string keys *)
Definition get_default {V : Type} (d : list (string * V)) (k : string) (default : V) : V :=
  match dict_get String.eqb d k with
  | Some v => v
  | None => default
  end.

(** Keys of [MANUAL_BOT_DATA].  Python compares keys by value: [True], [1]
    and [1.0] are one key, so numbers are kept in the normal form
    [m * 2 ^ e] with [m] odd (or [0 * 2 ^ 0]). *)
Inductive pykey : Type :=
| KNone
| KStr (s : string)
| KNum (m e : Z).

Fixpoint strip2 (p : positive) (e : Z) : positive * Z :=
  match p with
  | xO q => strip2 q (e + 1)
  | _ => (p, e)
  end.

Definition norm_num (m e : Z) : pykey :=
  match m with
  | Z0 => KNum 0 0
  | Zpos p => let '(q, e') := strip2 p e in KNum (Zpos q) e'
  | Zneg p => let '(q, e') := strip2 p e in KNum (Zneg q) e'
  end.

(** [hash(v)]: lists and dictionaries are unhashable ([TypeError]). *)
Definition hash_key (v : json) : option pykey :=
  match v with
  | JNull => Some KNone
  | JBool b => Some (norm_num (if b then 1 else 0) 0)
  | JInt n => Some (norm_num n 0)
  | JFloat m e => Some (norm_num m e)
  | JStr s => Some (KStr s)
  | JArr _ => None
  | JObj _ => None
  end.

Definition pykey_eqb (a b : pykey) : bool :=
  match a, b with
  | KNone, KNone => true
  | KStr s, KStr t => String.eqb s t
  | KNum m e, KNum n f => (m =? n) && (e =? f)
  | _, _ => false
  end.

(** ** Configuration, world and state *)

Definition PIONEX_API_URL : string := "https://api.pionex.com".

(** The two credentials, read from the environment once at import: each
    a [str], held as the bytes of its UTF-8 text. *)
Record Config : Type := {
  PIONEX_API_KEY : string;
  PIONEX_API_SECRET : string
}.

Record Request : Type := {
  req_method : string;
  req_url : string;
  req_headers : list (string * string);
  req_json : option (list (string * json));
  req_timeout : Z
}.

(** What a call of the HTTP library comes to.  [HttpReply]: an HTTP
    response (the last one, once the library has followed redirects) with
    its status and the bytes of its body, which are its text when they are
    UTF-8.  [NetError]: a failure below HTTP (connection, timeout) with its
    message, which [requests] raises as a [RequestException].
    [LibraryError]: any other exception that the call raises, with its
    class and its message, such as the [UnicodeEncodeError] of
    [http.client] for a header value that is not latin-1. *)
Inductive Reply : Type :=
| HttpReply (status : Z) (text : string)
| NetError (msg : string)
| LibraryError (exn msg : string).

(** The [json] module.  [json_loads] is what reading a body as JSON gives
    ([json.loads(body.decode())], [response.json()]): a value, or the
    message of the error raised on the way, in decoding or in parsing;
    [json_dumps] takes the separators. *)
Record JsonLib : Type := {
  json_loads : string -> json + string;
  json_dumps : string * string -> json -> string
}.

Definition compact_separators : string * string := (",", ":").
Definition default_separators : string * string := (", ", ": ").

(** The world: the [n]-th reading of [int(time.time() * 1000)] and the
    reply to the [n]-th upstream call. *)
Record World : Type := {
  clock : nat -> Z;
  upstream : nat -> Request -> Reply
}.

Record State : Type := {
  readings : nat;
  calls : list Request;
  MANUAL_BOT_DATA : list (pykey * json)
}.

Definition initial_state : State :=
  {| readings := 0; calls := []; MANUAL_BOT_DATA := [] |}.

(** Computations that read the world and change the state. *)
Definition M (A : Type) : Type := State -> A * State.

Definition ret {A : Type} (a : A) : M A := fun s => (a, s).

Definition bind {A B : Type} (c : M A) (k : A -> M B) : M B :=
  fun s => let (a, s') := c s in k a s'.

Notation "x <- c ;; k" := (bind c (fun x => k))
  (at level 61, c at next level, right associativity).
Notation "' pat <- c ;; k" := (bind c (fun x => match x with pat => k end))
  (at level 61, pat pattern, c at next level, right associativity).

(** [int(time.time() * 1000)] *)
Definition time_ms (w : World) : M Z :=
  fun s => (clock w (readings s),
            {| readings := S (readings s); calls := calls s;
               MANUAL_BOT_DATA := MANUAL_BOT_DATA s |}).

(** One upstream HTTP call. *)
Definition send (w : World) (r : Request) : M Reply :=
  fun s => (upstream w (List.length (calls s)) r,
            {| readings := readings s; calls := (calls s ++ [r])%list;
               MANUAL_BOT_DATA := MANUAL_BOT_DATA s |}).

Definition get_store : M (list (pykey * json)) :=
  fun s => (MANUAL_BOT_DATA s, s).

Definition put_store (d : list (pykey * json)) : M unit :=
  fun s => (tt, {| readings := readings s; calls := calls s;
                   MANUAL_BOT_DATA := d |}).

(** An exception that no handler of the program catches. *)
Inductive outcome (A : Type) : Type :=
| Returned (a : A)
| Raised (exn : string).
Arguments Returned {A} a.
Arguments Raised {A} exn.

(** ** Query strings *)

(** [sorted(params.items())]: the items are pairs and are compared as
    tuples; the keys of a dictionary differ pairwise, so the keys decide.
    The sort is stable. *)
Definition item_leb (a b : string * pyval) : bool := String.leb (fst a) (fst b).

Fixpoint insert_item (x : string * pyval) (l : list (string * pyval))
  : list (string * pyval) :=
  match l with
  | [] => [x]
  | y :: rest => if item_leb x y then x :: l else y :: insert_item x rest
  end.

Fixpoint sorted (l : list (string * pyval)) : list (string * pyval) :=
  match l with
  | [] => []
  | x :: rest => insert_item x (sorted rest)
  end.

(** The loop [for key, value in ...: if value is not None: append]. *)
Fixpoint collect_parts (items : list (string * pyval)) (query_parts : list string)
  : list string :=
  match items with
  | [] => query_parts
  | (key, value) :: rest =>
      match value with
      | PNone => collect_parts rest query_parts
      | _ => collect_parts rest (query_parts ++ [key ++ "=" ++ py_str value])
      end
  end.

(** The query string of [pionex_request], the same in the three files. *)
Definition build_query_string (params : option (list (string * pyval))) : string :=
  let query_parts :=
    match params with
    | Some ((_ :: _) as items) => collect_parts (sorted items) []
    | _ => []
    end in
  String.concat "&" query_parts.

(** The [headers] dictionary of [pionex_request], the same in the three
    files. *)
Definition request_headers (cfg : Config) (signature : string) : list (string * string) :=
  [ ("PIONEX-KEY", PIONEX_API_KEY cfg);
    ("PIONEX-SIGNATURE", signature);
    ("Content-Type", "application/json") ].

(** [not PIONEX_API_KEY or not PIONEX_API_SECRET] *)
Definition credentials_missing (cfg : Config) : bool :=
  negb (nonempty (PIONEX_API_KEY cfg)) || negb (nonempty (PIONEX_API_SECRET cfg)).

(** ** [server.py] *)

Module Server.
Section Program.
Variable cfg : Config.
Variable lib : JsonLib.
Variable w : World.

Definition generate_signature (method path query_string body : string)
  : M (string * Z) :=
  timestamp <- time_ms w ;;
  let path_url :=
    if nonempty query_string
    then path ++ "?" ++ query_string ++ "&timestamp=" ++ str_of_int timestamp
    else path ++ "?timestamp=" ++ str_of_int timestamp in
  let sign_str := method ++ path_url in
  let sign_str := if nonempty body then sign_str ++ body else sign_str in
  let signature :=
    hmac_sha256_hexdigest (encode_utf8 (PIONEX_API_SECRET cfg))
                          (encode_utf8 sign_str) in
  ret (signature, timestamp).

Definition error_envelope (msg : string) : json := JObj [("error", JStr msg)].

(** The [try] of [pionex_request].  [response.json()] on a body that is
    not JSON raises the [JSONDecodeError] of [requests], a
    [RequestException]; the [except] clause catches [RequestException] and
    nothing else, so another exception of the call escapes. *)
Definition receive (reply : Reply) : outcome json :=
  match reply with
  | HttpReply _ text =>
      match json_loads lib text with
      | inl v => Returned v
      | inr msg => Returned (error_envelope msg)
      end
  | NetError msg => Returned (error_envelope msg)
  | LibraryError exn _ => Raised exn
  end.

(** [body_str = ""], then [json.dumps(body, separators=(',', ':'))]
    under [if body:] *)
Definition body_str (body : option (list (string * json))) : string :=
  match body with
  | Some ((_ :: _) as fields) => json_dumps lib compact_separators (JObj fields)
  | _ => ""
  end.

Definition pionex_request (method endpoint : string)
           (params : option (list (string * pyval)))
           (body : option (list (string * json))) : M (outcome json) :=
  if credentials_missing cfg
  then ret (Returned (error_envelope "API credentials not configured"))
  else
    let query_string := build_query_string params in
    let body_str := body_str body in
    '(signature, timestamp) <-
      generate_signature method endpoint query_string body_str ;;
    let url :=
      if nonempty query_string
      then PIONEX_API_URL ++ endpoint ++ "?" ++ query_string
             ++ "&timestamp=" ++ str_of_int timestamp
      else PIONEX_API_URL ++ endpoint ++ "?timestamp=" ++ str_of_int timestamp in
    let headers := request_headers cfg signature in
    if (method =? "GET")%string then
      reply <- send w {| req_method := "GET"; req_url := url;
                         req_headers := headers; req_json := None;
                         req_timeout := 10 |} ;;
      ret (receive reply)
    else if (method =? "POST")%string then
      reply <- send w {| req_method := "POST"; req_url := url;
                         req_headers := headers; req_json := body;
                         req_timeout := 10 |} ;;
      ret (receive reply)
    else if (method =? "DELETE")%string then
      reply <- send w {| req_method := "DELETE"; req_url := url;
                         req_headers := headers; req_json := body;
                         req_timeout := 10 |} ;;
      ret (receive reply)
    else ret (Returned (error_envelope ("Unsupported method: " ++ method))).

(** A Flask view returns the status and the value given to [jsonify]. *)
Definition jsonify (status : Z) (v : json) : Z * json := (status, v).

(** [return jsonify(result)] after [result = pionex_request(...)]: an
    exception that escaped [pionex_request] escapes the view. *)
Definition jsonify_result (result : outcome json) : outcome (Z * json) :=
  match result with
  | Returned v => Returned (jsonify 200 v)
  | Raised e => Raised e
  end.

Definition health_check : M (Z * json) :=
  ret (jsonify 200
         (JObj [ ("status", JStr "ok");
                 ("configured",
                  JBool (nonempty (PIONEX_API_KEY cfg)
                         && nonempty (PIONEX_API_SECRET cfg))) ])).

Definition get_futures_balance : M (outcome (Z * json)) :=
  result <- pionex_request "GET" "/api/v1/account/balances"
                           (Some [("type", PStr "PERP")]) None ;;
  ret (jsonify_result result).

Definition get_futures_positions : M (outcome (Z * json)) :=
  result <- pionex_request "GET" "/api/v1/futures/positions" None None ;;
  ret (jsonify_result result).

(** [request.args.get("limit", 100)] and the optional [symbol] *)
Definition limit_arg (args : list (string * string)) : pyval :=
  match dict_get String.eqb args "limit" with
  | Some v => PStr v
  | None => PInt 100
  end.

Definition with_symbol (args : list (string * string))
           (params : list (string * pyval)) : list (string * pyval) :=
  match dict_get String.eqb args "symbol" with
  | Some symbol =>
      if nonempty symbol then dict_set String.eqb params "symbol" (PStr symbol)
      else params
  | None => params
  end.

Definition get_position_history (args : list (string * string)) : M (outcome (Z * json)) :=
  let params := with_symbol args [("limit", limit_arg args)] in
  result <- pionex_request "GET" "/api/v1/futures/positions/history"
                           (Some params) None ;;
  ret (jsonify_result result).

Definition get_futures_orders (args : list (string * string)) : M (outcome (Z * json)) :=
  let params := with_symbol args [] in
  result <- pionex_request "GET" "/api/v1/futures/orders" (Some params) None ;;
  ret (jsonify_result result).

Definition get_order_history (args : list (string * string)) : M (outcome (Z * json)) :=
  let params := with_symbol args [("limit", limit_arg args)] in
  result <- pionex_request "GET" "/api/v1/futures/orders/history"
                           (Some params) None ;;
  ret (jsonify_result result).

Definition get_funding_fees (args : list (string * string)) : M (outcome (Z * json)) :=
  let params := with_symbol args [("limit", limit_arg args)] in
  result <- pionex_request "GET" "/api/v1/futures/funding" (Some params) None ;;
  ret (jsonify_result result).

Definition get_tickers (args : list (string * string)) : M (outcome (Z * json)) :=
  let params := with_symbol args [("type", PStr "PERP")] in
  result <- pionex_request "GET" "/api/v1/common/symbols" (Some params) None ;;
  ret (jsonify_result result).

Definition get_price (symbol : string) : M (outcome (Z * json)) :=
  result <- pionex_request "GET" "/api/v1/market/ticker"
                           (Some [("symbol", PStr symbol)]) None ;;
  ret (jsonify_result result).

(** *** The manual bot store *)

Definition get_bots : M (Z * json) :=
  store <- get_store ;;
  ret (jsonify 200
         (JObj [ ("result", JBool true);
                 ("data", JObj [("bots", JArr (dict_values store))]) ])).

(** The record that [update_bot] builds from the payload. *)
Definition bot_record (data : list (string * json)) (bot_name : json) (now : Z)
  : json :=
  JObj [ ("name", bot_name);
         ("pair", get_default data "pair" (JStr ""));
         ("leverage", get_default data "leverage" (JInt 1));
         ("investment", get_default data "investment" (JInt 0));
         ("profit", get_default data "profit" (JInt 0));
         ("profitPercent", get_default data "profitPercent" (JInt 0));
         ("lastPrice", get_default data "lastPrice" (JInt 0));
         ("markPrice", get_default data "markPrice" (JInt 0));
         ("liqPrice", get_default data "liqPrice" JNull);
         ("updatedAt", JInt now) ].

(** [data] is [request.json]; a payload that is not an object has no
    [get]; the record is built, clock included, before the assignment
    hashes the name. *)
Definition update_bot (data : json) : M (outcome (Z * json)) :=
  match data with
  | JObj fields =>
      let bot_name := get_default fields "name" JNull in
      if negb (truthy bot_name)
      then ret (Returned (jsonify 400 (error_envelope "Bot name required")))
      else
        now <- time_ms w ;;
        let record := bot_record fields bot_name now in
        match hash_key bot_name with
        | None => ret (Raised "TypeError")
        | Some k =>
            store <- get_store ;;
            _ <- put_store (dict_set pykey_eqb store k record) ;;
            ret (Returned (jsonify 200 (JObj [ ("result", JBool true);
                                               ("data", record) ])))
        end
  | _ => ret (Raised "AttributeError")
  end.

Definition delete_bot (bot_name : string) : M (Z * json) :=
  store <- get_store ;;
  if dict_mem pykey_eqb store (KStr bot_name)
  then
    _ <- put_store (dict_del pykey_eqb store (KStr bot_name)) ;;
    ret (jsonify 200 (JObj [("result", JBool true)]))
  else ret (jsonify 404 (error_envelope "Bot not found")).

End Program.
End Server.

(** ** What [urllib.request.urlopen] and the two [except] clauses of the
       serverless files make of a reply

    [urlopen] returns on a 2xx status and raises [HTTPError] on any other.
    On a 2xx status the body is decoded and parsed inside the [try], where
    [except Exception] catches what goes wrong.  On another status [e.fp]
    is the response and the body is decoded inside the
    [except HTTPError] clause, where nothing catches the
    [UnicodeDecodeError] of a body that is not UTF-8: it escapes.  Any
    other exception of the call is caught by [except Exception]. *)
Definition urllib_receive (lib : JsonLib) (reply : Reply) : outcome json :=
  match reply with
  | HttpReply code text =>
      if (200 <=? code) && (code <? 300)
      then
        match json_loads lib text with
        | inl v => Returned v
        | inr msg => Returned (JObj [("error", JStr msg); ("result", JBool false)])
        end
      else if valid_utf8 text
      then Returned
             (JObj [ ("error", JStr ("HTTP " ++ str_of_int code ++ ": " ++ text));
                     ("result", JBool false) ])
      else Raised "UnicodeDecodeError"
  | NetError msg => Returned (JObj [("error", JStr msg); ("result", JBool false)])
  | LibraryError _ msg =>
      Returned (JObj [("error", JStr msg); ("result", JBool false)])
  end.

(** ** [api/index.py] *)

Module Index.
Section Program.
Variable cfg : Config.
Variable lib : JsonLib.
Variable w : World.

Definition generate_signature (method path query_string body : string)
  : M (string * Z) :=
  timestamp <- time_ms w ;;
  let path_url :=
    if nonempty query_string
    then path ++ "?" ++ query_string ++ "&timestamp=" ++ str_of_int timestamp
    else path ++ "?timestamp=" ++ str_of_int timestamp in
  let sign_str := method ++ path_url in
  let sign_str := if nonempty body then sign_str ++ body else sign_str in
  let signature :=
    hmac_sha256_hexdigest (encode_utf8 (PIONEX_API_SECRET cfg))
                          (encode_utf8 sign_str) in
  ret (signature, timestamp).

Definition pionex_request (method endpoint : string)
           (params : option (list (string * pyval))) : M (outcome json) :=
  if credentials_missing cfg
  then ret (Returned (JObj [ ("error", JStr "API credentials not configured");
                             ("result", JBool false) ]))
  else
    let query_string := build_query_string params in
    '(signature, timestamp) <-
      generate_signature method endpoint query_string "" ;;
    let url :=
      if nonempty query_string
      then PIONEX_API_URL ++ endpoint ++ "?" ++ query_string
             ++ "&timestamp=" ++ str_of_int timestamp
      else PIONEX_API_URL ++ endpoint ++ "?timestamp=" ++ str_of_int timestamp in
    let headers := request_headers cfg signature in
    reply <- send w {| req_method := method; req_url := url;
                       req_headers := headers; req_json := None;
                       req_timeout := 10 |} ;;
    ret (urllib_receive lib reply).

Record Response : Type := {
  statusCode : Z;
  headers : list (string * string);
  body : string
}.

Definition cors_headers : list (string * string) :=
  [ ("Access-Control-Allow-Origin", "*");
    ("Access-Control-Allow-Methods", "GET, POST, OPTIONS");
    ("Access-Control-Allow-Headers", "Content-Type");
    ("Content-Type", "application/json") ].

(** [200 if response_body.get("result") else 400]; only a dictionary has
    [get]. *)
Definition status_of (response_body : json) : outcome Z :=
  match response_body with
  | JObj fields =>
      Returned (if truthy (get_default fields "result" JNull) then 200 else 400)
  | _ => Raised "AttributeError"
  end.

Definition respond (status_code : Z) (response_body : json) : outcome Response :=
  Returned {| statusCode := status_code; headers := cors_headers;
              body := json_dumps lib default_separators response_body |}.

Definition proxied (response_body : json) : outcome Response :=
  match status_of response_body with
  | Returned status_code => respond status_code response_body
  | Raised e => Raised e
  end.

(** The branch of a path with one upstream call: an exception that escaped
    [pionex_request] escapes [handler]. *)
Definition relay (result : outcome json) : outcome Response :=
  match result with
  | Returned response_body => proxied response_body
  | Raised e => Raised e
  end.

(** [handler(request)] with [path] and [method] taken from the request.
    In [/api/balances] the second call is made once the first has
    returned. *)
Definition handler (path method : string) : M (outcome Response) :=
  if (method =? "OPTIONS")%string then
    ret (Returned {| statusCode := 200; headers := cors_headers; body := "" |})
  else if (path =? "/api")%string || (path =? "/api/")%string
          || (path =? "/api/health")%string then
    ret (respond 200
           (JObj [ ("status", JStr "ok");
                   ("configured",
                    JBool (nonempty (PIONEX_API_KEY cfg)
                           && nonempty (PIONEX_API_SECRET cfg)));
                   ("result", JBool true) ]))
  else if (path =? "/api/futures/balance")%string then
    result <- pionex_request "GET" "/api/v1/account/balances"
                                    (Some [("type", PStr "PERP")]) ;;
    ret (relay result)
  else if (path =? "/api/futures/positions")%string then
    result <- pionex_request "GET" "/api/v1/futures/positions" None ;;
    ret (relay result)
  else if (path =? "/api/balance")%string then
    result <- pionex_request "GET" "/api/v1/account/balances" None ;;
    ret (relay result)
  else if (path =? "/api/balances")%string then
    first <- pionex_request "GET" "/api/v1/account/balances"
                            (Some [("type", PStr "SPOT")]) ;;
    match first with
    | Raised e => ret (Raised e)
    | Returned spot =>
        second <- pionex_request "GET" "/api/v1/account/balances"
                                 (Some [("type", PStr "PERP")]) ;;
        match second with
        | Raised e => ret (Raised e)
        | Returned perp =>
            ret (respond 200 (JObj [ ("result", JBool true);
                                     ("spot", spot);
                                     ("futures", perp) ]))
        end
    end
  else if (path =? "/api/futures/orders")%string then
    result <- pionex_request "GET" "/api/v1/futures/openOrders" None ;;
    ret (relay result)
  else if (path =? "/api/test")%string then
    ret (respond 200
           (JObj [ ("result", JBool true);
                   ("message", JStr "API is working");
                   ("has_key", JBool (nonempty (PIONEX_API_KEY cfg)));
                   ("has_secret", JBool (nonempty (PIONEX_API_SECRET cfg)));
                   ("key_preview",
                    JStr (if nonempty (PIONEX_API_KEY cfg)
                          then first_chars 8 (PIONEX_API_KEY cfg) ++ "..."
                          else "not set")) ]))
  else
    ret (respond 404 (JObj [ ("error", JStr "Not found");
                             ("result", JBool false) ])).

(** [main(request)]: the path and the method of the request go to
    [handler], which does not read the body. *)
Definition main (path method body : string) : M (outcome Response) :=
  handler path method.

(** What a method of [Handler] puts on the wire: the status line, the
    headers and the bytes written to [wfile]. *)
Record Sent : Type := {
  sent_status : Z;
  sent_headers : list (string * string);
  sent_body : list Z
}.

(** [Handler.do_GET]: [self.path] is the request target as received, query
    string included. *)
Definition do_GET (path : string) : M (outcome Sent) :=
  result <- handler path "GET" ;;
  ret (match result with
       | Returned r =>
           Returned {| sent_status := statusCode r;
                       sent_headers := headers r;
                       sent_body := encode_utf8 (body r) |}
       | Raised e => Raised e
       end).

(** [Handler.do_OPTIONS]: status and headers, nothing written. *)
Definition do_OPTIONS (path : string) : M (outcome Sent) :=
  result <- handler path "OPTIONS" ;;
  ret (match result with
       | Returned r =>
           Returned {| sent_status := statusCode r;
                       sent_headers := headers r;
                       sent_body := [] |}
       | Raised e => Raised e
       end).

End Program.
End Index.

(** ** [api/positions.py] *)

Module Positions.
Section Program.
Variable cfg : Config.
Variable lib : JsonLib.
Variable w : World.

Definition generate_signature (method path query_string : string)
  : M (string * Z) :=
  timestamp <- time_ms w ;;
  let path_url :=
    if nonempty query_string
    then path ++ "?" ++ query_string ++ "&timestamp=" ++ str_of_int timestamp
    else path ++ "?timestamp=" ++ str_of_int timestamp in
  let sign_str := method ++ path_url in
  let signature :=
    hmac_sha256_hexdigest (encode_utf8 (PIONEX_API_SECRET cfg))
                          (encode_utf8 sign_str) in
  ret (signature, timestamp).

Definition pionex_request (endpoint : string)
           (params : option (list (string * pyval))) : M (outcome json) :=
  if credentials_missing cfg
  then ret (Returned (JObj [ ("error", JStr "API credentials not configured");
                             ("result", JBool false) ]))
  else
    let query_string := build_query_string params in
    '(signature, timestamp) <-
      generate_signature "GET" endpoint query_string ;;
    let url :=
      if nonempty query_string
      then PIONEX_API_URL ++ endpoint ++ "?" ++ query_string
             ++ "&timestamp=" ++ str_of_int timestamp
      else PIONEX_API_URL ++ endpoint ++ "?timestamp=" ++ str_of_int timestamp in
    let headers := request_headers cfg signature in
    reply <- send w {| req_method := "GET"; req_url := url;
                       req_headers := headers; req_json := None;
                       req_timeout := 15 |} ;;
    ret (urllib_receive lib reply).

(** [do_GET]: status 200 and the serialised result, once
    [pionex_request] has returned. *)
Definition do_GET : M (outcome (Z * string)) :=
  result <- pionex_request "/api/v1/futures/positions" None ;;
  ret (match result with
       | Returned v => Returned (200, json_dumps lib default_separators v)
       | Raised e => Raised e
       end).

(** [do_OPTIONS]: status 200 and the three CORS headers. *)
Definition do_OPTIONS : Z * list (string * string) :=
  (200, [ ("Access-Control-Allow-Origin", "*");
          ("Access-Control-Allow-Methods", "GET, OPTIONS");
          ("Access-Control-Allow-Headers", "Content-Type") ]).

End Program.
End Positions.


(** ** Vocabulary of the statements *)

(** *** Query strings *)

Definition keys_ascending (l : list (string * pyval)) : Prop :=
  StronglySorted (fun a b => String.leb a b = true) (dict_keys l).

Definition keys_strictly_ascending (l : list (string * pyval)) : Prop :=
  StronglySorted (fun a b => String.ltb a b = true) (dict_keys l).

(** In the words of the specification: a parameter is kept when its value
    is not absent, and is written [key=value]. *)
Definition has_value (kv : string * pyval) : bool :=
  match snd kv with
  | PNone => false
  | _ => true
  end.

Definition pair_text (kv : string * pyval) : string :=
  fst kv ++ "=" ++ py_str (snd kv).


(** *** Signing *)

(** What the specification appends to the path: [?{query}&timestamp={ts}]
    when there is a query, [?timestamp={ts}] when there is none. *)
Definition timestamp_suffix (query : string) (ts : Z) : string :=
  match query with
  | EmptyString => "?timestamp=" ++ str_of_int ts
  | String _ _ => "?" ++ query ++ "&timestamp=" ++ str_of_int ts
  end.

(** The string that is signed: method, path with its suffix, then the text
    of the body (empty when there is no body). *)
Definition string_to_sign (method path query body : string) (ts : Z) : string :=
  method ++ path ++ timestamp_suffix query ts ++ body.

(** Hex-encoded HMAC-SHA256, keyed by the configured secret, of the UTF-8
    bytes of the string to sign. *)
Definition signature_of (cfg : Config) (method path query body : string) (ts : Z)
  : string :=
  hmac_sha256_hexdigest (encode_utf8 (PIONEX_API_SECRET cfg))
                        (encode_utf8 (string_to_sign method path query body ts)).

(** The URL of the upstream call for a given timestamp. *)
Definition request_url (endpoint query : string) (ts : Z) : string :=
  PIONEX_API_URL ++ endpoint ++ timestamp_suffix query ts.

Definition signature_header (r : Request) : option string :=
  dict_get String.eqb (req_headers r) "PIONEX-SIGNATURE".

(** *** A concrete configuration and world for the examples *)

Definition example_cfg : Config :=
  {| PIONEX_API_KEY := "key-0001"; PIONEX_API_SECRET := "secret-0001" |}.

Definition no_secret_cfg : Config :=
  {| PIONEX_API_KEY := "key-0001"; PIONEX_API_SECRET := "" |}.

(** [json.loads] and [json.dumps] on the few texts and values that the
    examples meet: the empty object parses, any other example body is not
    JSON. *)
Definition example_lib : JsonLib :=
  {| json_loads := fun text =>
       if (text =? "{}")%string then inl (JObj [])
       else inr "Expecting value: line 1 column 1 (char 0)";
     json_dumps := fun _ v =>
       match v with
       | JNull => "null"
       | JBool true => "true"
       | JBool false => "false"
       | JInt n => str_of_int n
       | JArr [] => "[]"
       | JObj [] => "{}"
       | _ => ""
       end |}.

(** A clock that starts at [1700000000000] and advances by seven
    milliseconds per reading, and an upstream that answers every call with
    the given reply. *)
Definition example_world (reply : Reply) : World :=
  {| clock := fun n => 1700000000000 + 7 * Z.of_nat n;
     upstream := fun _ _ => reply |}.

(** A clock that stands still. *)
Definition frozen_world (reply : Reply) : World :=
  {| clock := fun _ => 1700000000000;
     upstream := fun _ _ => reply |}.

(** A body that [bytes.decode()] refuses: the single byte [0xFF]. *)
Definition not_utf8 : string := String (ascii_of_nat 255) EmptyString.

(** The upstream call for a given timestamp: URL and signature are built
    from that one timestamp. *)
Definition upstream_request (cfg : Config) (method endpoint query body : string)
           (payload : option (list (string * json))) (timeout : Z) (ts : Z)
  : Request :=
  {| req_method := method;
     req_url := request_url endpoint query ts;
     req_headers := request_headers cfg (signature_of cfg method endpoint query body ts);
     req_json := payload;
     req_timeout := timeout |}.

(** The methods that [server.py] forwards. *)
Definition forwarded (method : string) : bool :=
  (method =? "GET")%string || (method =? "POST")%string || (method =? "DELETE")%string.

(** The state after one more clock reading and one more upstream call. *)
Definition after_call (s : State) (r : Request) : State :=
  {| readings := S (readings s); calls := (calls s ++ [r])%list;
     MANUAL_BOT_DATA := MANUAL_BOT_DATA s |}.

(** *** Envelopes *)

(** [v[k]] for a JSON object, nothing for another value. *)
Definition json_field (v : json) (k : string) : option json :=
  match v with
  | JObj fields => dict_get String.eqb fields k
  | _ => None
  end.

(** The error message of an envelope. *)
Definition error_of (v : json) : option string :=
  match json_field v "error" with
  | Some (JStr msg) => Some msg
  | _ => None
  end.


(** The error envelope that section 7 of the specification describes:
    [result:false] and a readable [error] string. *)
Definition error_envelope_with_result (v : json) : Prop :=
  json_field v "result" = Some (JBool false)
  /\ exists msg, error_of v = Some msg /\ nonempty msg = true.


(** A 2xx status. *)
Definition is_2xx (code : Z) : bool := (200 <=? code) && (code <? 300).

(** Both credentials are set. *)
Definition configured (cfg : Config) : bool :=
  nonempty (PIONEX_API_KEY cfg) && nonempty (PIONEX_API_SECRET cfg).

(** *** The manual bot store *)

(** The ten fields of a stored record, in the order of the dictionary
    literal of [update_bot]. *)
Definition bot_fields : list string :=
  [ "name"; "pair"; "leverage"; "investment"; "profit"; "profitPercent";
    "lastPrice"; "markPrice"; "liqPrice"; "updatedAt" ].

(** The defaults of the specification for the fields that a payload may
    omit. *)
Definition bot_defaults : list (string * json) :=
  [ ("pair", JStr ""); ("leverage", JInt 1); ("investment", JInt 0);
    ("profit", JInt 0); ("profitPercent", JInt 0); ("lastPrice", JInt 0);
    ("markPrice", JInt 0); ("liqPrice", JNull) ].

(** The entries of the store under a key. *)
Definition entries_for (store : list (pykey * json)) (k : pykey) : list (pykey * json) :=
  filter (fun kv => pykey_eqb k (fst kv)) store.

(** The entries of the store under the other keys. *)
Definition entries_but (store : list (pykey * json)) (k : pykey) : list (pykey * json) :=
  filter (fun kv => negb (pykey_eqb k (fst kv))) store.

(** [updatedAt] of the record stored under a name. *)
Definition updated_at (store : list (pykey * json)) (name : string) : option Z :=
  match dict_get pykey_eqb store (KStr name) with
  | Some r =>
      match json_field r "updatedAt" with
      | Some (JInt t) => Some t
      | _ => None
      end
  | None => None
  end.

(** The list under [data.bots] in the answer of [GET /api/bots]. *)
Definition bots_of (response : Z * json) : list json :=
  match json_field (snd response) "data" with
  | Some data =>
      match json_field data "bots" with
      | Some (JArr bots) => bots
      | _ => []
      end
  | None => []
  end.

(** A stored record is an object with exactly the ten fields, whose [name]
    is a value that hashes to the key it is stored under. *)
Definition record_ok (k : pykey) (r : json) : Prop :=
  exists fields,
    r = JObj fields
    /\ dict_keys fields = bot_fields
    /\ exists name, dict_get String.eqb fields "name" = Some name
                    /\ hash_key name = Some k.

Definition store_invariant (store : list (pykey * json)) : Prop :=
  NoDup (dict_keys store)
  /\ Forall (fun kv => record_ok (fst kv) (snd kv)) store.

(** The operations on the state of [server.py]: the three bot routes and a
    proxied request. *)
Inductive operation : Type :=
| GetBots
| PostBot (data : json)
| DeleteBot (bot_name : string)
| Proxy (method endpoint : string)
        (params : option (list (string * pyval)))
        (body : option (list (string * json))).

Definition run (cfg : Config) (lib : JsonLib) (w : World) (s : State) (op : operation)
  : State :=
  match op with
  | GetBots => snd (Server.get_bots s)
  | PostBot data => snd (Server.update_bot w data s)
  | DeleteBot bot_name => snd (Server.delete_bot bot_name s)
  | Proxy method endpoint params body =>
      snd (Server.pionex_request cfg lib w method endpoint params body s)
  end.

(** The state after a sequence of operations. *)
Definition run_all (cfg : Config) (lib : JsonLib) (w : World)
           (ops : list operation) (s : State) : State :=
  fold_left (run cfg lib w) ops s.

(** Example payloads. *)
Definition bot1_payload : list (string * json) :=
  [ ("name", JStr "bot1"); ("pair", JStr "BTCUSDT"); ("leverage", JInt 5) ].

Definition bot1_update : list (string * json) :=
  [ ("name", JStr "bot1"); ("pair", JStr "ETHUSDT"); ("profit", JFloat 25 (-1));
    ("comment", JStr "dropped") ].

(** *** Further vocabulary *)

(** A lower-case hexadecimal digit. *)
Definition is_hex_char (c : ascii) : bool :=
  let n := N_of_ascii c in
  (((48 <=? n) && (n <=? 57)) || ((97 <=? n) && (n <=? 102)))%N.

Fixpoint all_chars (p : ascii -> bool) (s : string) : bool :=
  match s with
  | EmptyString => true
  | String c rest => p c && all_chars p rest
  end.

(** The character [c] occurs in [s]. *)
Fixpoint has_char (c : ascii) (s : string) : bool :=
  match s with
  | EmptyString => false
  | String c' rest => Ascii.eqb c c' || has_char c rest
  end.

(** The paths that [handler] of [api/index.py] routes. *)
Definition routed_paths : list string :=
  [ "/api"; "/api/"; "/api/health"; "/api/futures/balance";
    "/api/futures/positions"; "/api/balance"; "/api/balances";
    "/api/futures/orders"; "/api/test" ].

(** The paths of [handler] that make one upstream call, with the endpoint
    and the parameters of the call. *)
Definition single_call_routes
  : list (string * (string * option (list (string * pyval)))) :=
  [ ("/api/futures/balance",
     ("/api/v1/account/balances", Some [("type", PStr "PERP")]));
    ("/api/futures/positions", ("/api/v1/futures/positions", None));
    ("/api/balance", ("/api/v1/account/balances", None));
    ("/api/futures/orders", ("/api/v1/futures/openOrders", None)) ].

(** The state after one more clock reading and no upstream call. *)
Definition after_reading (s : State) : State :=
  {| readings := S (readings s); calls := calls s;
     MANUAL_BOT_DATA := MANUAL_BOT_DATA s |}.

(** An operation on the bot store that is not a [POST]. *)
Definition not_a_post (op : operation) : bool :=
  match op with
  | PostBot _ => false
  | _ => true
  end.

(** The text of the [limit] argument of a request, [100] when the request
    has none. *)
Definition limit_text (args : list (string * string)) : string :=
  match dict_get String.eqb args "limit" with
  | Some v => v
  | None => "100"
  end.

(** The [symbol] argument of a request when it is there and not empty. *)
Definition symbol_of (args : list (string * string)) : option string :=
  match dict_get String.eqb args "symbol" with
  | Some (String c rest) => Some (String c rest)
  | _ => None
  end.

(** The [GET] request of a route of [server.py] for a given query string
    and timestamp. *)
Definition route_request (cfg : Config) (endpoint query : string) (ts : Z) : Request :=
  upstream_request cfg "GET" endpoint query "" None 10 ts.



(** The paths of [handler] that call the upstream. *)
Definition proxy_paths : list string :=
  [ "/api/futures/balance"; "/api/futures/positions"; "/api/balance";
    "/api/balances"; "/api/futures/orders" ].

(** The response of [handler] for a status and a value. *)
Definition index_response (lib : JsonLib) (status : Z) (v : json) : Index.Response :=
  {| Index.statusCode := status;
     Index.headers := Index.cors_headers;
     Index.body := json_dumps lib default_separators v |}.

Definition not_found : json :=
  JObj [("error", JStr "Not found"); ("result", JBool false)].
(** * Properties *)

(** ** The hash against published test vectors *)

Example sha256_abc :
  hex (SHA256.digest (encode_utf8 "abc"))
  = "ba7816bf8f01cfea414140de5dae2223b00361a396177a9cb410ff61f20015ad".
Proof. vm_compute. reflexivity. Qed.

Example sha256_empty :
  hex (SHA256.digest [])
  = "e3b0c44298fc1c149afbf4c8996fb92427ae41e4649b934ca495991b7852b855".
Proof. vm_compute. reflexivity. Qed.

Example sha256_two_blocks :
  hex (SHA256.digest
         (encode_utf8 "abcdbcdecdefdefgefghfghighijhijkijkljklmklmnlmnomnopnopq"))
  = "248d6a61d20638b8e5c026930c3e6039a33ce45964ff2167f6ecedd419db06c1".
Proof. vm_compute. reflexivity. Qed.

(** RFC 4231, test case 2. *)
Example hmac_rfc4231_2 :
  hmac_sha256_hexdigest (encode_utf8 "Jefe")
                        (encode_utf8 "what do ya want for nothing?")
  = "5bdcc146bf60754e6a042426089575c75a003f089d2739839dec58b964ec3843".
Proof. vm_compute. reflexivity. Qed.

(** RFC 4231, test case 6: a key longer than the block is hashed first. *)
Example hmac_rfc4231_6 :
  hmac_sha256_hexdigest
    (repeat 0xaa 131)
    (encode_utf8 "Test Using Larger Than Block-Size Key - Hash Key First")
  = "60e431591ee0b67f0d8a26aacbf5b77f8e0bc6213728c5140546040f0ee37f54".
Proof. vm_compute. reflexivity. Qed.

Example str_of_int_examples :
  str_of_int 0 = "0" /\ str_of_int 1700000000123 = "1700000000123"
  /\ str_of_int (-5) = "-5".
Proof. repeat split. Qed.

(** ** The order on keys *)

Lemma ascii_compare_refl (a : ascii) : Ascii.compare a a = Eq.
Proof. unfold Ascii.compare. apply N.compare_refl. Qed.

Lemma ascii_compare_lt_trans (a b c : ascii) :
  Ascii.compare a b = Lt -> Ascii.compare b c = Lt -> Ascii.compare a c = Lt.
Proof.
  unfold Ascii.compare. rewrite !N.compare_lt_iff. apply N.lt_trans.
Qed.

Lemma string_compare_refl (s : string) : String.compare s s = Eq.
Proof.
  induction s as [|a s IH]; simpl; [reflexivity|].
  now rewrite ascii_compare_refl.
Qed.

Lemma string_compare_lt_trans (s1 : string) :
  forall s2 s3,
    String.compare s1 s2 = Lt -> String.compare s2 s3 = Lt ->
    String.compare s1 s3 = Lt.
Proof.
  induction s1 as [|a s1 IH]; intros [|b s2] [|c s3]; simpl;
    try discriminate; try reflexivity.
  destruct (Ascii.compare a b) eqn:Hab; try discriminate;
    destruct (Ascii.compare b c) eqn:Hbc; try discriminate; intros H12 H23.
  - apply Ascii.compare_eq_iff in Hab, Hbc. subst.
    rewrite ascii_compare_refl. now apply IH with s2.
  - apply Ascii.compare_eq_iff in Hab. subst. now rewrite Hbc.
  - apply Ascii.compare_eq_iff in Hbc. subst. now rewrite Hab.
  - now rewrite (ascii_compare_lt_trans a b c).
Qed.

Lemma string_ltb_leb (s t : string) : String.ltb s t = true -> String.leb s t = true.
Proof.
  unfold String.leb, String.ltb. destruct (String.compare s t); congruence.
Qed.

Lemma string_leb_cases (s t : string) :
  String.leb s t = true -> s = t \/ String.ltb s t = true.
Proof.
  unfold String.leb, String.ltb.
  destruct (String.compare s t) eqn:H; try discriminate; intros _.
  - left. now apply String.compare_eq_iff.
  - now right.
Qed.

Lemma string_ltb_trans (s t u : string) :
  String.ltb s t = true -> String.ltb t u = true -> String.ltb s u = true.
Proof.
  unfold String.ltb.
  destruct (String.compare s t) eqn:Hst; try discriminate.
  destruct (String.compare t u) eqn:Htu; try discriminate.
  now rewrite (string_compare_lt_trans s t u).
Qed.

Lemma string_leb_trans (s t u : string) :
  String.leb s t = true -> String.leb t u = true -> String.leb s u = true.
Proof.
  intros Hst Htu.
  destruct (string_leb_cases _ _ Hst) as [->|Hlt]; [assumption|].
  destruct (string_leb_cases _ _ Htu) as [<-|Hlt']; [assumption|].
  apply string_ltb_leb. now apply string_ltb_trans with t.
Qed.

(** ** [sorted] is a stable insertion sort by key *)

Lemma insert_item_perm (x : string * pyval) (l : list (string * pyval)) :
  Permutation (x :: l) (insert_item x l).
Proof.
  induction l as [|y l IH]; simpl; [reflexivity|].
  destruct (item_leb x y); [reflexivity|].
  rewrite perm_swap. now apply perm_skip.
Qed.

Lemma sorted_perm (l : list (string * pyval)) : Permutation l (sorted l).
Proof.
  induction l as [|x l IH]; simpl; [constructor|].
  rewrite <- insert_item_perm. now apply perm_skip.
Qed.

Lemma insert_item_ascending (x : string * pyval) (l : list (string * pyval)) :
  keys_ascending l -> keys_ascending (insert_item x l).
Proof.
  unfold keys_ascending, dict_keys.
  induction l as [|y l IH]; simpl; intros Hs.
  - repeat constructor.
  - inversion Hs as [|? ? Hl Hy]; subst.
    destruct (item_leb x y) eqn:Hxy; simpl.
    + constructor; [assumption|]. constructor; [exact Hxy|].
      rewrite Forall_forall in *. intros k Hk.
      apply string_leb_trans with (fst y); [exact Hxy|]. now apply Hy.
    + constructor; [now apply IH|].
      assert (Hyx : String.leb (fst y) (fst x) = true).
      { destruct (String.leb_total (fst y) (fst x)) as [H|H]; [exact H|].
        unfold item_leb in Hxy. congruence. }
      rewrite Forall_forall in *. intros k Hk.
      apply (Permutation_in k (Permutation_map fst (Permutation_sym (insert_item_perm x l)))) in Hk.
      destruct Hk as [<-|Hk]; [exact Hyx|now apply Hy].
Qed.

Lemma sorted_ascending (l : list (string * pyval)) : keys_ascending (sorted l).
Proof.
  induction l as [|x l IH]; simpl.
  - constructor.
  - now apply insert_item_ascending.
Qed.

(** Two insertions of items with different keys commute. *)
Lemma insert_item_comm (x y : string * pyval) (l : list (string * pyval)) :
  fst x <> fst y ->
  insert_item x (insert_item y l) = insert_item y (insert_item x l).
Proof.
  intros Hne.
  assert (Hc : (item_leb x y = true /\ item_leb y x = false)
               \/ (item_leb x y = false /\ item_leb y x = true)).
  { unfold item_leb.
    destruct (String.leb (fst x) (fst y)) eqn:H1,
             (String.leb (fst y) (fst x)) eqn:H2; auto.
    - exfalso. apply Hne. now apply String.leb_antisym.
    - destruct (String.leb_total (fst x) (fst y)); congruence. }
  induction l as [|z l IH]; simpl.
  - destruct Hc as [[E E']|[E E']]; now rewrite E, E'.
  - destruct (item_leb y z) eqn:Hyz, (item_leb x z) eqn:Hxz; simpl.
    + destruct Hc as [[E E']|[E E']]; rewrite E, E'; simpl;
        now rewrite ?Hyz, ?Hxz.
    + destruct Hc as [[E E']|[E E']]; rewrite ?E, ?E'; simpl.
      * exfalso. unfold item_leb in *.
        rewrite (string_leb_trans _ _ _ E Hyz) in Hxz. discriminate.
      * now rewrite ?Hxz, ?Hyz.
    + destruct Hc as [[E E']|[E E']]; rewrite ?E, ?E'; simpl.
      * now rewrite ?Hxz, ?Hyz.
      * exfalso. unfold item_leb in *.
        rewrite (string_leb_trans _ _ _ E' Hxz) in Hyz. discriminate.
    + now rewrite Hxz, Hyz, IH.
Qed.

Lemma sorted_perm_invariant (l1 l2 : list (string * pyval)) :
  Permutation l1 l2 -> NoDup (dict_keys l1) -> sorted l1 = sorted l2.
Proof.
  unfold dict_keys.
  induction 1 as [|x l l' Hp IH|x y l|l l' l'' Hp1 IH1 Hp2 IH2]; intros Hnd; simpl in *.
  - reflexivity.
  - inversion Hnd; subst. now rewrite IH.
  - apply insert_item_comm.
    inversion Hnd as [|? ? Hnotin _]; subst. intros Heq. apply Hnotin. now left.
  - rewrite IH1 by assumption. apply IH2.
    eapply Permutation_NoDup; [|exact Hnd]. now apply Permutation_map.
Qed.

Lemma ascending_nodup_strict (ks : list string) :
  StronglySorted (fun a b => String.leb a b = true) ks -> NoDup ks ->
  StronglySorted (fun a b => String.ltb a b = true) ks.
Proof.
  induction 1 as [|k ks Hs IH Hall]; intros Hnd; constructor.
  - apply IH. now inversion Hnd.
  - inversion Hnd as [|? ? Hnotin _]; subst.
    rewrite Forall_forall in *. intros k' Hin.
    destruct (string_leb_cases _ _ (Hall k' Hin)) as [->|H]; [contradiction|exact H].
Qed.

(** ** The canonical query string *)

Lemma collect_parts_spec (items : list (string * pyval)) :
  forall acc, collect_parts items acc = (acc ++ map pair_text (filter has_value items))%list.
Proof.
  induction items as [|[k v] items IH]; intros acc; simpl.
  - now rewrite app_nil_r.
  - destruct v; unfold has_value; simpl; rewrite IH; try reflexivity;
      now rewrite <- app_assoc.
Qed.

Lemma build_query_string_sorted (items : list (string * pyval)) :
  build_query_string (Some items)
  = String.concat "&" (map pair_text (filter has_value (sorted items))).
Proof.
  unfold build_query_string. destruct items as [|x items]; [reflexivity|].
  now rewrite collect_parts_spec.
Qed.

Lemma filter_perm {A : Type} (f : A -> bool) (l l' : list A) :
  Permutation l l' -> Permutation (filter f l) (filter f l').
Proof.
  induction 1 as [|x l l' _ IH|x y l|l l' l'' _ IH1 _ IH2]; simpl.
  - constructor.
  - destruct (f x); [now apply perm_skip|assumption].
  - destruct (f x), (f y); try reflexivity. apply perm_swap.
  - now rewrite IH1.
Qed.

Lemma filter_strictly_ascending (f : string * pyval -> bool) (l : list (string * pyval)) :
  keys_strictly_ascending l -> keys_strictly_ascending (filter f l).
Proof.
  unfold keys_strictly_ascending, dict_keys.
  induction l as [|x l IH]; simpl; intros Hs; [constructor|].
  inversion Hs as [|? ? Hl Hx]; subst.
  destruct (f x); simpl; [|now apply IH].
  constructor; [now apply IH|].
  rewrite Forall_forall in *. intros k Hk. apply Hx.
  rewrite in_map_iff in *. destruct Hk as [kv [<- Hin]].
  exists kv. split; [reflexivity|]. now apply filter_In in Hin.
Qed.

Lemma sorted_strictly_ascending (l : list (string * pyval)) :
  NoDup (dict_keys l) -> keys_strictly_ascending (sorted l).
Proof.
  intros Hnd. apply ascending_nodup_strict; [apply sorted_ascending|].
  eapply Permutation_NoDup; [|exact Hnd].
  apply Permutation_map, sorted_perm.
Qed.

(** C3. For every parameter mapping (a dictionary: one item per key), the
    query string built by [pionex_request] (the same code in the three
    files) is the [key=value] texts, joined with [&], of exactly the
    parameters whose value is not [None], listed with their keys in
    strictly ascending lexicographic order; and a mapping with the same
    items in another insertion order gives the identical string. *)
Theorem C3_canonical_query_string (l1 l2 : list (string * pyval)) :
  NoDup (dict_keys l1) ->
  Permutation l1 l2 ->
  (exists kept,
      build_query_string (Some l1) = String.concat "&" (map pair_text kept)
      /\ Permutation kept (filter has_value l1)
      /\ keys_strictly_ascending kept)
  /\ build_query_string (Some l1) = build_query_string (Some l2).
Proof.
  intros Hnd Hperm. split.
  - exists (filter has_value (sorted l1)). split; [|split].
    + apply build_query_string_sorted.
    + apply filter_perm. symmetry. apply sorted_perm.
    + apply filter_strictly_ascending. now apply sorted_strictly_ascending.
  - rewrite !build_query_string_sorted.
    now rewrite (sorted_perm_invariant l1 l2 Hperm Hnd).
Qed.

Lemma C3_witness :
  let l1 := [("symbol", PStr "BTC_USDT_PERP"); ("limit", PInt 100); ("cursor", PNone)] in
  let l2 := [("cursor", PNone); ("limit", PInt 100); ("symbol", PStr "BTC_USDT_PERP")] in
  build_query_string (Some l1) = "limit=100&symbol=BTC_USDT_PERP"
  /\ build_query_string (Some l1) = build_query_string (Some l2).
Proof.
  intros l1 l2. split; [reflexivity|].
  apply (C3_canonical_query_string l1 l2).
  - unfold dict_keys. simpl. repeat constructor; simpl; intuition discriminate.
  - unfold l1, l2.
    apply Permutation_sym.
    change (Permutation ([("cursor", PNone); ("limit", PInt 100)] ++ [("symbol", PStr "BTC_USDT_PERP")])
                        ([("symbol", PStr "BTC_USDT_PERP")] ++ [("limit", PInt 100); ("cursor", PNone)])).
    rewrite Permutation_app_comm. simpl. apply perm_skip. apply perm_swap.
Defined.

(** ** Text *)

Lemma append_empty_r (s : string) : s ++ "" = s.
Proof. induction s as [|a s IH]; simpl; congruence. Qed.

Lemma append_assoc (s t u : string) : (s ++ t) ++ u = s ++ t ++ u.
Proof. induction s as [|a s IH]; simpl; congruence. Qed.

(** ** Signing *)

(** The path-url of the code is the path followed by the suffix of the
    specification. *)
Lemma path_url_suffix (path query : string) (ts : Z) :
  (if nonempty query
   then path ++ "?" ++ query ++ "&timestamp=" ++ str_of_int ts
   else path ++ "?timestamp=" ++ str_of_int ts)
  = path ++ timestamp_suffix query ts.
Proof.
  destruct query; reflexivity.
Qed.

(** Appending the body under [if body:] is appending it. *)
Lemma sign_str_body (prefix body : string) :
  (if nonempty body then prefix ++ body else prefix) = prefix ++ body.
Proof.
  destruct body; simpl; [now rewrite append_empty_r|reflexivity].
Qed.

Lemma server_generate_signature_run cfg w method path query body s :
  Server.generate_signature cfg w method path query body s
  = ((signature_of cfg method path query body (clock w (readings s)),
      clock w (readings s)),
     {| readings := S (readings s); calls := calls s;
        MANUAL_BOT_DATA := MANUAL_BOT_DATA s |}).
Proof.
  unfold Server.generate_signature, bind, time_ms, ret, signature_of, string_to_sign.
  now rewrite path_url_suffix, sign_str_body, !append_assoc.
Qed.

Lemma index_generate_signature_run cfg w method path query body s :
  Index.generate_signature cfg w method path query body s
  = ((signature_of cfg method path query body (clock w (readings s)),
      clock w (readings s)),
     {| readings := S (readings s); calls := calls s;
        MANUAL_BOT_DATA := MANUAL_BOT_DATA s |}).
Proof.
  unfold Index.generate_signature, bind, time_ms, ret, signature_of, string_to_sign.
  now rewrite path_url_suffix, sign_str_body, !append_assoc.
Qed.

Lemma positions_generate_signature_run cfg w method path query s :
  Positions.generate_signature cfg w method path query s
  = ((signature_of cfg method path query "" (clock w (readings s)),
      clock w (readings s)),
     {| readings := S (readings s); calls := calls s;
        MANUAL_BOT_DATA := MANUAL_BOT_DATA s |}).
Proof.
  unfold Positions.generate_signature, bind, time_ms, ret, signature_of, string_to_sign.
  now rewrite path_url_suffix, append_empty_r.
Qed.

(** C1. For every method, path, query string, body string and clock
    reading, [generate_signature] returns that reading as the timestamp
    together with the hex-encoded HMAC-SHA256, keyed by the configured
    secret, of the UTF-8 bytes of: the method, the path followed by
    [?{query}&timestamp={ts}] (or [?timestamp={ts}] for an empty query),
    then the body text.  So it is in [server.py] and [api/index.py]; in
    [api/positions.py], which takes no body, nothing follows the path-url. *)
Theorem C1_signature_is_hmac_of_assembled_string
        (cfg : Config) (w : World) (method path query body : string) (s : State) :
  let ts := clock w (readings s) in
  fst (Server.generate_signature cfg w method path query body s)
  = (hmac_sha256_hexdigest
       (encode_utf8 (PIONEX_API_SECRET cfg))
       (encode_utf8 (string_to_sign method path query body ts)), ts)
  /\ fst (Index.generate_signature cfg w method path query body s)
     = (hmac_sha256_hexdigest
          (encode_utf8 (PIONEX_API_SECRET cfg))
          (encode_utf8 (string_to_sign method path query body ts)), ts)
  /\ fst (Positions.generate_signature cfg w method path query s)
     = (hmac_sha256_hexdigest
          (encode_utf8 (PIONEX_API_SECRET cfg))
          (encode_utf8 (string_to_sign method path query "" ts)), ts).
Proof.
  intros ts.
  rewrite server_generate_signature_run, index_generate_signature_run,
    positions_generate_signature_run.
  repeat split.
Qed.

(** A signature computed in full. *)
Example generate_signature_computed :
  fst (Server.generate_signature example_cfg (example_world (NetError ""))
         "GET" "/api/v1/account/balances" "type=PERP" "" initial_state)
  = ("d2bd65ffe1bafff3ca312af6fdcc2cc38ac40df44e214e84b8cbc34aa44d14d9",
     1700000000000).
Proof. vm_compute. reflexivity. Qed.

(** ** One upstream call per request *)

Lemma url_suffix (endpoint query : string) (ts : Z) :
  (if nonempty query
   then PIONEX_API_URL ++ endpoint ++ "?" ++ query ++ "&timestamp=" ++ str_of_int ts
   else PIONEX_API_URL ++ endpoint ++ "?timestamp=" ++ str_of_int ts)
  = request_url endpoint query ts.
Proof. destruct query; reflexivity. Qed.

Lemma index_pionex_request_run cfg lib w method endpoint params s :
  credentials_missing cfg = false ->
  let r := upstream_request cfg method endpoint (build_query_string params) ""
                            None 10 (clock w (readings s)) in
  Index.pionex_request cfg lib w method endpoint params s
  = (urllib_receive lib (upstream w (List.length (calls s)) r), after_call s r).
Proof.
  intros Hc r. unfold Index.pionex_request. rewrite Hc.
  unfold bind. rewrite index_generate_signature_run.
  unfold send, ret. cbn [readings calls MANUAL_BOT_DATA].
  rewrite url_suffix. reflexivity.
Qed.

Lemma positions_pionex_request_run cfg lib w endpoint params s :
  credentials_missing cfg = false ->
  let r := upstream_request cfg "GET" endpoint (build_query_string params) ""
                            None 15 (clock w (readings s)) in
  Positions.pionex_request cfg lib w endpoint params s
  = (urllib_receive lib (upstream w (List.length (calls s)) r), after_call s r).
Proof.
  intros Hc r. unfold Positions.pionex_request. rewrite Hc.
  unfold bind. rewrite positions_generate_signature_run.
  unfold send, ret. cbn [readings calls MANUAL_BOT_DATA].
  rewrite url_suffix. reflexivity.
Qed.

Lemma server_pionex_request_run cfg lib w method endpoint params body s :
  credentials_missing cfg = false ->
  forwarded method = true ->
  let r := upstream_request cfg method endpoint (build_query_string params)
             (Server.body_str lib body)
             (if (method =? "GET")%string then None else body) 10
             (clock w (readings s)) in
  Server.pionex_request cfg lib w method endpoint params body s
  = (Server.receive lib (upstream w (List.length (calls s)) r), after_call s r).
Proof.
  intros Hc Hm r. unfold Server.pionex_request. rewrite Hc.
  unfold bind. rewrite server_generate_signature_run.
  unfold send, ret. cbn [readings calls MANUAL_BOT_DATA].
  rewrite url_suffix. unfold forwarded in Hm. subst r.
  destruct (String.eqb_spec method "GET") as [->|HG]; [reflexivity|].
  destruct (String.eqb_spec method "POST") as [->|HP]; [reflexivity|].
  destruct (String.eqb_spec method "DELETE") as [->|HD]; [reflexivity|].
  discriminate.
Qed.

Lemma server_pionex_request_unsupported cfg lib w method endpoint params body s :
  credentials_missing cfg = false ->
  forwarded method = false ->
  Server.pionex_request cfg lib w method endpoint params body s
  = (Returned (Server.error_envelope ("Unsupported method: " ++ method)),
     {| readings := S (readings s); calls := calls s;
        MANUAL_BOT_DATA := MANUAL_BOT_DATA s |}).
Proof.
  intros Hc Hm. unfold Server.pionex_request. rewrite Hc.
  unfold bind. rewrite server_generate_signature_run.
  unfold forwarded in Hm.
  destruct (method =? "GET")%string; [discriminate|].
  destruct (method =? "POST")%string; [discriminate|].
  destruct (method =? "DELETE")%string; [discriminate|].
  reflexivity.
Qed.

(** C2. In every variant of [pionex_request] with credentials set, a call
    reads the clock exactly once; the timestamp that [generate_signature]
    returns is the one it signed over, and the request sent upstream (the
    only one) has its URL built from that same timestamp and carries that
    signature.  [server.py] sends a request for GET, POST and DELETE and
    none for another method. *)
Theorem C2_one_timestamp_signed_and_sent
        (cfg : Config) (lib : JsonLib) (w : World) (method endpoint : string)
        (params : option (list (string * pyval)))
        (body : option (list (string * json))) (s : State) :
  credentials_missing cfg = false ->
  let query := build_query_string params in
  (let signed := fst (Server.generate_signature cfg w method endpoint query
                        (Server.body_str lib body) s) in
   let s' := snd (Server.pionex_request cfg lib w method endpoint params body s) in
   readings s' = S (readings s)
   /\ fst signed = signature_of cfg method endpoint query
                                (Server.body_str lib body) (snd signed)
   /\ (forwarded method = true ->
       exists r, calls s' = (calls s ++ [r])%list
                 /\ req_url r = request_url endpoint query (snd signed)
                 /\ signature_header r = Some (fst signed))
   /\ (forwarded method = false -> calls s' = calls s))
  /\ (let signed := fst (Index.generate_signature cfg w method endpoint query "" s) in
      let s' := snd (Index.pionex_request cfg lib w method endpoint params s) in
      readings s' = S (readings s)
      /\ fst signed = signature_of cfg method endpoint query "" (snd signed)
      /\ exists r, calls s' = (calls s ++ [r])%list
                   /\ req_url r = request_url endpoint query (snd signed)
                   /\ signature_header r = Some (fst signed))
  /\ (let signed := fst (Positions.generate_signature cfg w "GET" endpoint query s) in
      let s' := snd (Positions.pionex_request cfg lib w endpoint params s) in
      readings s' = S (readings s)
      /\ fst signed = signature_of cfg "GET" endpoint query "" (snd signed)
      /\ exists r, calls s' = (calls s ++ [r])%list
                   /\ req_url r = request_url endpoint query (snd signed)
                   /\ signature_header r = Some (fst signed)).
Proof.
  intros Hc query. split; [|split].
  - rewrite server_generate_signature_run. cbn [fst snd].
    destruct (forwarded method) eqn:Hm.
    + rewrite (server_pionex_request_run _ _ _ _ _ _ _ _ Hc Hm). cbn [fst snd].
      repeat split; try discriminate.
      intros _. eexists. repeat split.
    + rewrite (server_pionex_request_unsupported _ _ _ _ _ _ _ _ Hc Hm).
      repeat split; discriminate.
  - rewrite index_generate_signature_run.
    rewrite (index_pionex_request_run _ _ _ _ _ _ _ Hc). cbn [fst snd].
    repeat split. eexists. repeat split.
  - rewrite positions_generate_signature_run.
    rewrite (positions_pionex_request_run _ _ _ _ _ _ Hc). cbn [fst snd].
    repeat split. eexists. repeat split.
Qed.

Lemma C2_witness :
  let w := example_world (HttpReply 200 "{}") in
  let params := Some [("type", PStr "PERP")] in
  credentials_missing example_cfg = false
  /\ (exists r,
        calls (snd (Index.pionex_request example_cfg example_lib w "GET"
                      "/api/v1/account/balances" params initial_state))
        = ([] ++ [r])%list
        /\ req_url r
           = "https://api.pionex.com/api/v1/account/balances?type=PERP&timestamp=1700000000000"
        /\ signature_header r
           = Some "d2bd65ffe1bafff3ca312af6fdcc2cc38ac40df44e214e84b8cbc34aa44d14d9")
  /\ forwarded "GET" = true
  /\ (exists r,
        calls (snd (Server.pionex_request example_cfg example_lib w "GET"
                      "/api/v1/account/balances" params None initial_state))
        = ([] ++ [r])%list
        /\ req_url r
           = "https://api.pionex.com/api/v1/account/balances?type=PERP&timestamp=1700000000000")
  /\ forwarded "PATCH" = false
  /\ calls (snd (Server.pionex_request example_cfg example_lib w "PATCH"
                   "/api/v1/account/balances" params None initial_state)) = [].
Proof.
  intros w params.
  destruct (C2_one_timestamp_signed_and_sent example_cfg example_lib w "GET"
              "/api/v1/account/balances" params None initial_state eq_refl)
    as [[_ [_ [Hsent _]]] [[_ [_ [r [Hcalls [Hurl Hsig]]]]] _]].
  destruct (C2_one_timestamp_signed_and_sent example_cfg example_lib w "PATCH"
              "/api/v1/account/balances" params None initial_state eq_refl)
    as [[_ [_ [_ Hnone]]] _].
  split; [reflexivity|]. split.
  { exists r. split; [exact Hcalls|]. split.
    - rewrite Hurl. vm_compute. reflexivity.
    - rewrite Hsig. vm_compute. reflexivity. }
  split; [reflexivity|]. split.
  { destruct (Hsent eq_refl) as [r' [Hcalls' [Hurl' _]]].
    exists r'. split; [exact Hcalls'|]. rewrite Hurl'. vm_compute. reflexivity. }
  split; [reflexivity|]. exact (Hnone eq_refl).
Defined.

(** ** Missing credentials *)

Lemma server_pionex_request_unconfigured cfg lib w method endpoint params body s :
  credentials_missing cfg = true ->
  Server.pionex_request cfg lib w method endpoint params body s
  = (Returned (JObj [("error", JStr "API credentials not configured")]), s).
Proof. intros Hc. unfold Server.pionex_request. now rewrite Hc. Qed.

Lemma index_pionex_request_unconfigured cfg lib w method endpoint params s :
  credentials_missing cfg = true ->
  Index.pionex_request cfg lib w method endpoint params s
  = (Returned (JObj [ ("error", JStr "API credentials not configured");
                      ("result", JBool false) ]), s).
Proof. intros Hc. unfold Index.pionex_request. now rewrite Hc. Qed.

Lemma positions_pionex_request_unconfigured cfg lib w endpoint params s :
  credentials_missing cfg = true ->
  Positions.pionex_request cfg lib w endpoint params s
  = (Returned (JObj [ ("error", JStr "API credentials not configured");
                      ("result", JBool false) ]), s).
Proof. intros Hc. unfold Positions.pionex_request. now rewrite Hc. Qed.

Lemma credentials_missing_iff (cfg : Config) :
  credentials_missing cfg = true
  <-> PIONEX_API_KEY cfg = "" \/ PIONEX_API_SECRET cfg = "".
Proof.
  unfold credentials_missing.
  destruct (PIONEX_API_KEY cfg), (PIONEX_API_SECRET cfg); simpl;
    intuition discriminate.
Qed.

(** C5 as stated fails in [server.py]: with the secret unset its
    [pionex_request] answers [{"error": ...}], an envelope without a
    [result] field. *)
Lemma C5_counterexample :
  credentials_missing no_secret_cfg = true
  /\ exists v,
      fst (Server.pionex_request no_secret_cfg example_lib
             (example_world (HttpReply 200 "{}"))
             "GET" "/api/v1/futures/positions" None None initial_state)
      = Returned v
      /\ ~ error_envelope_with_result v.
Proof.
  split; [reflexivity|].
  eexists. split; [reflexivity|].
  intros [Hresult _]. vm_compute in Hresult. discriminate.
Qed.

(** C5, amended.  If either credential is empty, every call to
    [pionex_request] returns at once, with no clock reading and no upstream
    call (the state is unchanged), an envelope whose [error] is the text
    "API credentials not configured"; the envelope carries [result:false]
    in [api/index.py] and [api/positions.py] and has no [result] field in
    [server.py]. *)
Theorem C5_configuration_error_without_call
        (cfg : Config) (lib : JsonLib) (w : World) (method endpoint : string)
        (params : option (list (string * pyval)))
        (body : option (list (string * json))) (s : State) :
  PIONEX_API_KEY cfg = "" \/ PIONEX_API_SECRET cfg = "" ->
  (let (result, s') :=
     Server.pionex_request cfg lib w method endpoint params body s in
   s' = s
   /\ exists v, result = Returned v
                /\ error_of v = Some "API credentials not configured"
                /\ json_field v "result" = None)
  /\ (let (result, s') := Index.pionex_request cfg lib w method endpoint params s in
      s' = s
      /\ exists v, result = Returned v
                   /\ error_of v = Some "API credentials not configured"
                   /\ json_field v "result" = Some (JBool false))
  /\ (let (result, s') := Positions.pionex_request cfg lib w endpoint params s in
      s' = s
      /\ exists v, result = Returned v
                   /\ error_of v = Some "API credentials not configured"
                   /\ json_field v "result" = Some (JBool false)).
Proof.
  intros Hc. apply credentials_missing_iff in Hc.
  rewrite (server_pionex_request_unconfigured _ lib w method endpoint params body s Hc).
  rewrite (index_pionex_request_unconfigured _ lib w method endpoint params s Hc).
  rewrite (positions_pionex_request_unconfigured _ lib w endpoint params s Hc).
  repeat split; eexists; repeat split.
Qed.

Lemma C5_witness :
  (PIONEX_API_KEY no_secret_cfg = "" \/ PIONEX_API_SECRET no_secret_cfg = "")
  /\ snd (Index.pionex_request no_secret_cfg example_lib
            (example_world (HttpReply 200 "{}"))
            "GET" "/api/v1/futures/positions" None initial_state)
     = initial_state.
Proof.
  split; [right; reflexivity|].
  destruct (C5_configuration_error_without_call no_secret_cfg example_lib
              (example_world (HttpReply 200 "{}"))
              "GET" "/api/v1/futures/positions" None None initial_state
              (or_intror eq_refl)) as [_ [H _]].
  destruct (Index.pionex_request _ _ _ _ _ _ _) as [v s']. exact (proj1 H).
Defined.

(** ** Health *)

(** C6. [GET /api/health] answers status 200 with [configured] false when
    either credential string is empty and true when both are non-empty, in
    [server.py] and in [api/index.py]; the state after the call is the
    state before it, so no upstream call is made (and the clock is not
    read). *)
Theorem C6_health_reports_configuration
        (cfg : Config) (lib : JsonLib) (w : World) (s : State) :
  Server.health_check cfg s
  = ((200, JObj [ ("status", JStr "ok"); ("configured", JBool (configured cfg)) ]), s)
  /\ Index.handler cfg lib w "/api/health" "GET" s
     = (Returned
          {| Index.statusCode := 200;
             Index.headers := Index.cors_headers;
             Index.body :=
               json_dumps lib default_separators
                 (JObj [ ("status", JStr "ok");
                         ("configured", JBool (configured cfg));
                         ("result", JBool true) ]) |}, s)
  /\ (configured cfg = false
      <-> PIONEX_API_KEY cfg = "" \/ PIONEX_API_SECRET cfg = "")
  /\ (configured cfg = true
      <-> PIONEX_API_KEY cfg <> "" /\ PIONEX_API_SECRET cfg <> "").
Proof.
  repeat split; unfold configured in *;
    destruct (PIONEX_API_KEY cfg), (PIONEX_API_SECRET cfg); simpl in *;
    intuition (try discriminate; try congruence).
Qed.

(** ** Upstream HTTP errors *)


Lemma urllib_receive_http_error lib code text :
  is_2xx code = false ->
  valid_utf8 text = true ->
  urllib_receive lib (HttpReply code text)
  = Returned
      (JObj [ ("error", JStr ("HTTP " ++ str_of_int code ++ ": " ++ text));
              ("result", JBool false) ]).
Proof. unfold urllib_receive, is_2xx. now intros -> ->. Qed.

Lemma urllib_receive_undecodable lib code text :
  is_2xx code = false ->
  valid_utf8 text = false ->
  urllib_receive lib (HttpReply code text) = Raised "UnicodeDecodeError".
Proof. unfold urllib_receive, is_2xx. now intros -> ->. Qed.




(** The routes of [api/index.py] relay the envelope: a route with one
    upstream call answers 400 with the envelope as body; the composite
    route [/api/balances] answers 200 with the two envelopes under [spot]
    and [futures] of an object whose own [result] is true. *)
Lemma index_route_relays_http_error cfg lib w s code text :
  credentials_missing cfg = false ->
  is_2xx code = false ->
  valid_utf8 text = true ->
  upstream w (List.length (calls s))
    (upstream_request cfg "GET" "/api/v1/futures/positions" "" "" None 10
       (clock w (readings s)))
  = HttpReply code text ->
  fst (Index.handler cfg lib w "/api/futures/positions" "GET" s)
  = Returned
      {| Index.statusCode := 400;
         Index.headers := Index.cors_headers;
         Index.body :=
           json_dumps lib default_separators
             (JObj [ ("error", JStr ("HTTP " ++ str_of_int code ++ ": " ++ text));
                     ("result", JBool false) ]) |}.
Proof.
  intros Hc H2 Hu Hreply. unfold Index.handler.
  cbn [String.eqb Ascii.eqb Bool.eqb orb].
  unfold bind.
  rewrite (index_pionex_request_run cfg lib w "GET" "/api/v1/futures/positions"
             None s Hc).
  cbn [build_query_string String.concat]. rewrite Hreply.
  rewrite (urllib_receive_http_error _ _ _ H2 Hu). reflexivity.
Qed.

Lemma index_balances_unconfigured cfg lib w s :
  credentials_missing cfg = true ->
  Index.handler cfg lib w "/api/balances" "GET" s
  = (Returned
       {| Index.statusCode := 200;
          Index.headers := Index.cors_headers;
          Index.body :=
            json_dumps lib default_separators
              (JObj [ ("result", JBool true);
                      ("spot", JObj [ ("error", JStr "API credentials not configured");
                                      ("result", JBool false) ]);
                      ("futures", JObj [ ("error", JStr "API credentials not configured");
                                         ("result", JBool false) ]) ]) |}, s).
Proof.
  intros Hc. unfold Index.handler. cbn [String.eqb Ascii.eqb Bool.eqb orb].
  unfold bind. now rewrite !index_pionex_request_unconfigured.
Qed.

(** ** Dictionaries *)

Section DictFacts.
Context {K V : Type} (eqb : K -> K -> bool).
Hypothesis eqb_eq : forall a b, eqb a b = true <-> a = b.

Lemma eqb_same (k : K) : eqb k k = true.
Proof. now apply eqb_eq. Qed.

Lemma eqb_other (k k' : K) : k <> k' -> eqb k k' = false.
Proof.
  intros Hne. destruct (eqb k k') eqn:E; [|reflexivity].
  now apply eqb_eq in E.
Qed.

Lemma dict_get_set_same (d : list (K * V)) (k : K) (v : V) :
  dict_get eqb (dict_set eqb d k v) k = Some v.
Proof.
  induction d as [|[k' v'] d IH]; simpl.
  - now rewrite eqb_same.
  - destruct (eqb k k') eqn:E; simpl; rewrite E; [reflexivity|exact IH].
Qed.

Lemma dict_get_set_other (d : list (K * V)) (k k' : K) (v : V) :
  k' <> k -> dict_get eqb (dict_set eqb d k v) k' = dict_get eqb d k'.
Proof.
  intros Hne. induction d as [|[k0 v0] d IH]; simpl.
  - now rewrite (eqb_other k' k Hne).
  - destruct (eqb k k0) eqn:E; simpl.
    + apply eqb_eq in E. subst k0. now rewrite (eqb_other k' k Hne).
    + now rewrite IH.
Qed.

Lemma dict_get_none_keys (d : list (K * V)) (k : K) :
  dict_get eqb d k = None <-> ~ In k (dict_keys d).
Proof.
  induction d as [|[k' v'] d IH]; simpl; [intuition|].
  destruct (eqb k k') eqn:E.
  - apply eqb_eq in E. subst. split; [discriminate|]. intros H. exfalso. auto.
  - rewrite IH. split.
    + intros Hn [->|Hin]; [|contradiction]. now rewrite eqb_same in E.
    + intros Hn Hin. apply Hn. now right.
Qed.

Lemma dict_get_some_keys (d : list (K * V)) (k : K) (v : V) :
  dict_get eqb d k = Some v -> In k (dict_keys d).
Proof.
  induction d as [|[k' v'] d IH]; simpl; [discriminate|].
  destruct (eqb k k') eqn:E.
  - apply eqb_eq in E. subst. now left.
  - intros H. right. now apply IH.
Qed.

Lemma dict_keys_set (d : list (K * V)) (k : K) (v : V) :
  dict_keys (dict_set eqb d k v)
  = if dict_mem eqb d k then dict_keys d else (dict_keys d ++ [k])%list.
Proof.
  unfold dict_mem. induction d as [|[k' v'] d IH]; simpl; [reflexivity|].
  destruct (eqb k k') eqn:E; simpl; [reflexivity|].
  rewrite IH. now destruct (dict_get eqb d k).
Qed.

Lemma dict_set_nodup (d : list (K * V)) (k : K) (v : V) :
  NoDup (dict_keys d) -> NoDup (dict_keys (dict_set eqb d k v)).
Proof.
  intros Hnd. rewrite dict_keys_set. unfold dict_mem.
  destruct (dict_get eqb d k) eqn:E; [assumption|].
  apply dict_get_none_keys in E.
  apply (Permutation_NoDup (l := k :: dict_keys d)).
  - apply Permutation_cons_append.
  - now constructor.
Qed.

Lemma dict_set_in (d : list (K * V)) (k : K) (v : V) (kv : K * V) :
  In kv (dict_set eqb d k v) -> In kv d \/ (snd kv = v /\ eqb k (fst kv) = true).
Proof.
  induction d as [|[k' v'] d IH]; simpl.
  - intros [<-|[]]. right. simpl. now rewrite eqb_same.
  - destruct (eqb k k') eqn:E; simpl.
    + intros [<-|Hin]; [right; simpl; auto|left; now right].
    + intros [<-|Hin]; [left; now left|].
      destruct (IH Hin) as [H|H]; [left; now right|now right].
Qed.

Lemma dict_set_values_in (d : list (K * V)) (k : K) (v : V) :
  In v (dict_values (dict_set eqb d k v)).
Proof.
  unfold dict_values.
  induction d as [|[k' v'] d IH]; simpl; [now left|].
  destruct (eqb k k'); simpl; [now left|now right].
Qed.

Lemma dict_del_filter (d : list (K * V)) (k : K) :
  dict_del eqb d k = filter (fun kv => negb (eqb k (fst kv))) d.
Proof.
  induction d as [|[k' v'] d IH]; simpl; [reflexivity|].
  destruct (eqb k k'); simpl; now rewrite IH.
Qed.

Lemma dict_get_del_same (d : list (K * V)) (k : K) :
  dict_get eqb (dict_del eqb d k) k = None.
Proof.
  induction d as [|[k' v'] d IH]; simpl; [reflexivity|].
  destruct (eqb k k') eqn:E; simpl; [exact IH|]. now rewrite E.
Qed.

Lemma dict_get_del_other (d : list (K * V)) (k k' : K) :
  k' <> k -> dict_get eqb (dict_del eqb d k) k' = dict_get eqb d k'.
Proof.
  intros Hne. induction d as [|[k0 v0] d IH]; simpl; [reflexivity|].
  destruct (eqb k k0) eqn:E; simpl.
  - apply eqb_eq in E. subst k0. now rewrite (eqb_other k' k Hne).
  - now rewrite IH.
Qed.

Lemma dict_del_absent (d : list (K * V)) (k : K) :
  dict_mem eqb d k = false -> dict_del eqb d k = d.
Proof.
  unfold dict_mem. induction d as [|[k' v'] d IH]; simpl; [reflexivity|].
  destruct (eqb k k'); [discriminate|]. intros H. now rewrite IH.
Qed.

Lemma dict_del_nodup (d : list (K * V)) (k : K) :
  NoDup (dict_keys d) -> NoDup (dict_keys (dict_del eqb d k)).
Proof.
  rewrite dict_del_filter. unfold dict_keys.
  induction d as [|[k' v'] d IH]; simpl; intros Hnd; [constructor|].
  inversion Hnd as [|? ? Hnotin Hnd']; subst.
  destruct (eqb k k'); simpl; [now apply IH|].
  constructor; [|now apply IH].
  intros Hin. apply Hnotin. rewrite in_map_iff in *.
  destruct Hin as [kv [Hk Hin]]. exists kv. split; [exact Hk|].
  now apply filter_In in Hin.
Qed.

Lemma no_entry (d : list (K * V)) (k : K) :
  ~ In k (dict_keys d) -> filter (fun kv => eqb k (fst kv)) d = [].
Proof.
  unfold dict_keys.
  induction d as [|[k' v'] d IH]; simpl; [reflexivity|].
  intros Hn. destruct (eqb k k') eqn:E.
  - exfalso. apply Hn. left. symmetry. now apply eqb_eq.
  - apply IH. intros H. apply Hn. now right.
Qed.

(** In a dictionary, a key that is there has exactly one entry. *)
Lemma nodup_one_entry (d : list (K * V)) (k : K) :
  NoDup (dict_keys d) -> In k (dict_keys d) ->
  List.length (filter (fun kv => eqb k (fst kv)) d) = 1%nat.
Proof.
  induction d as [|[k' v'] d IH]; simpl; intros Hnd Hin; [contradiction|].
  inversion Hnd as [|? ? Hnotin Hnd']; subst.
  destruct (eqb k k') eqn:E; simpl.
  - apply eqb_eq in E. subst k'. f_equal.
    now rewrite no_entry.
  - apply IH; [assumption|].
    destruct Hin as [->|Hin]; [|assumption]. now rewrite eqb_same in E.
Qed.
End DictFacts.

Lemma pykey_eqb_eq (a b : pykey) : pykey_eqb a b = true <-> a = b.
Proof.
  destruct a, b; simpl; try (split; [discriminate|congruence]).
  - tauto.
  - rewrite String.eqb_eq. split; congruence.
  - rewrite andb_true_iff, !Z.eqb_eq. split; [intros [-> ->]; reflexivity|].
    intros H. inversion H. auto.
Qed.

(** ** The manual bot store *)

Lemma update_bot_rejected w fields s :
  truthy (get_default fields "name" JNull) = false ->
  Server.update_bot w (JObj fields) s
  = (Returned (400, JObj [("error", JStr "Bot name required")]), s).
Proof. intros H. unfold Server.update_bot. now rewrite H. Qed.

Lemma update_bot_stored w fields s k :
  truthy (get_default fields "name" JNull) = true ->
  hash_key (get_default fields "name" JNull) = Some k ->
  let record := Server.bot_record fields (get_default fields "name" JNull)
                                  (clock w (readings s)) in
  Server.update_bot w (JObj fields) s
  = (Returned (200, JObj [("result", JBool true); ("data", record)]),
     {| readings := S (readings s); calls := calls s;
        MANUAL_BOT_DATA := dict_set pykey_eqb (MANUAL_BOT_DATA s) k record |}).
Proof.
  intros Ht Hk record. unfold Server.update_bot. rewrite Ht. simpl.
  unfold bind, time_ms. rewrite Hk. reflexivity.
Qed.

Lemma update_bot_unhashable w fields s :
  truthy (get_default fields "name" JNull) = true ->
  hash_key (get_default fields "name" JNull) = None ->
  Server.update_bot w (JObj fields) s
  = (Raised "TypeError",
     {| readings := S (readings s); calls := calls s;
        MANUAL_BOT_DATA := MANUAL_BOT_DATA s |}).
Proof.
  intros Ht Hk. unfold Server.update_bot. rewrite Ht. simpl.
  unfold bind, time_ms. rewrite Hk. reflexivity.
Qed.

Lemma get_default_found {V : Type} (d : list (string * V)) (k : string) (v default : V) :
  dict_get String.eqb d k = Some v -> get_default d k default = v.
Proof. unfold get_default. now intros ->. Qed.

Lemma bot_record_defaults fields name now f d :
  In (f, d) bot_defaults ->
  json_field (Server.bot_record fields name now) f
  = Some (match dict_get String.eqb fields f with Some v => v | None => d end).
Proof.
  unfold bot_defaults. simpl.
  intros [H|[H|[H|[H|[H|[H|[H|[H|[]]]]]]]]]; inversion H; subst; reflexivity.
Qed.

(** C7. [POST /api/bots] with an object whose [name] is missing or empty
    (null, the empty string, or another value that Python takes as false)
    answers 400 with an error and leaves the whole state as it was.  With a
    non-empty string as [name] it answers 200 and the
    store becomes the old store with the record assigned under that name:
    the record has the posted name, for each of [pair], [leverage],
    [investment], [profit], [profitPercent], [lastPrice], [markPrice],
    [liqPrice] the posted value, or the default ("", 1, 0, 0, 0, 0, 0,
    null) when the payload omits it, and [updatedAt] is the clock reading
    of the call; a [GET /api/bots] that follows answers 200 with that
    record among its bots. *)
Theorem C7_post_bot_upserts_with_defaults
        (w : World) (fields : list (string * json)) (s : State) :
  (dict_get String.eqb fields "name" = None
   \/ (exists v, dict_get String.eqb fields "name" = Some v /\ truthy v = false) ->
   Server.update_bot w (JObj fields) s
   = (Returned (400, JObj [("error", JStr "Bot name required")]), s))
  /\ (forall name,
         dict_get String.eqb fields "name" = Some (JStr name) ->
         name <> "" ->
         exists record,
           Server.update_bot w (JObj fields) s
           = (Returned (200, JObj [("result", JBool true); ("data", record)]),
              {| readings := S (readings s); calls := calls s;
                 MANUAL_BOT_DATA :=
                   dict_set pykey_eqb (MANUAL_BOT_DATA s) (KStr name) record |})
           /\ dict_get pykey_eqb
                (MANUAL_BOT_DATA (snd (Server.update_bot w (JObj fields) s)))
                (KStr name) = Some record
           /\ json_field record "name" = Some (JStr name)
           /\ (forall f d, In (f, d) bot_defaults ->
                 json_field record f
                 = Some (match dict_get String.eqb fields f with
                         | Some v => v
                         | None => d
                         end))
           /\ json_field record "updatedAt" = Some (JInt (clock w (readings s)))
           /\ fst (fst (Server.get_bots (snd (Server.update_bot w (JObj fields) s))))
              = 200
           /\ In record
                (bots_of (fst (Server.get_bots
                                 (snd (Server.update_bot w (JObj fields) s)))))).
Proof.
  split.
  - intros H. apply update_bot_rejected. unfold get_default.
    destruct H as [->|[v [-> Hv]]]; [reflexivity|exact Hv].
  - intros name Hname Hne.
    assert (Hget : get_default fields "name" JNull = JStr name)
      by now apply get_default_found.
    assert (Ht : truthy (get_default fields "name" JNull) = true).
    { rewrite Hget. destruct name; [contradiction|reflexivity]. }
    assert (Hk : hash_key (get_default fields "name" JNull) = Some (KStr name))
      by now rewrite Hget.
    pose proof (update_bot_stored w fields s _ Ht Hk) as Hrun.
    rewrite Hget in Hrun. cbv zeta in Hrun.
    exists (Server.bot_record fields (JStr name) (clock w (readings s))).
    rewrite Hrun. cbn [snd fst MANUAL_BOT_DATA].
    split; [reflexivity|].
    split; [apply (dict_get_set_same _ pykey_eqb_eq)|].
    split; [reflexivity|].
    split; [intros f d Hin; now apply bot_record_defaults|].
    split; [reflexivity|].
    split; [reflexivity|].
    unfold Server.get_bots, bind, get_store, ret, bots_of. simpl.
    apply (dict_set_values_in pykey_eqb).
Qed.

Lemma C7_witness :
  dict_get String.eqb [("pair", JStr "BTCUSDT")] "name" = None
  /\ Server.update_bot (example_world (NetError "unused"))
       (JObj [("pair", JStr "BTCUSDT")]) initial_state
     = (Returned (400, JObj [("error", JStr "Bot name required")]), initial_state)
  /\ truthy (JStr "") = false
  /\ Server.update_bot (example_world (NetError "unused"))
       (JObj [("name", JStr ""); ("pair", JStr "BTCUSDT")]) initial_state
     = (Returned (400, JObj [("error", JStr "Bot name required")]), initial_state)
  /\ dict_get String.eqb bot1_payload "name" = Some (JStr "bot1")
  /\ "bot1" <> ""
  /\ exists record,
      In record
         (bots_of (fst (Server.get_bots
                          (snd (Server.update_bot (example_world (NetError "unused"))
                                  (JObj bot1_payload) initial_state)))))
      /\ json_field record "name" = Some (JStr "bot1")
      /\ json_field record "pair" = Some (JStr "BTCUSDT")
      /\ json_field record "leverage" = Some (JInt 5)
      /\ json_field record "profit" = Some (JInt 0)
      /\ json_field record "liqPrice" = Some JNull
      /\ json_field record "updatedAt" = Some (JInt 1700000000000).
Proof.
  split; [reflexivity|].
  split.
  { apply (proj1 (C7_post_bot_upserts_with_defaults
                    (example_world (NetError "unused"))
                    [("pair", JStr "BTCUSDT")] initial_state)).
    left. reflexivity. }
  split; [reflexivity|].
  split.
  { apply (proj1 (C7_post_bot_upserts_with_defaults
                    (example_world (NetError "unused"))
                    [("name", JStr ""); ("pair", JStr "BTCUSDT")] initial_state)).
    right. exists (JStr ""). split; reflexivity. }
  split; [reflexivity|]. split; [discriminate|].
  destruct (proj2 (C7_post_bot_upserts_with_defaults
                     (example_world (NetError "unused")) bot1_payload initial_state)
                  "bot1" eq_refl)
    as [record [_ [_ [Hname [Hfields [Hstamp [_ Hin]]]]]]]; [discriminate|].
  exists record. split; [exact Hin|]. split; [exact Hname|].
  split; [apply (Hfields "pair" (JStr "")); simpl; tauto|].
  split; [apply (Hfields "leverage" (JInt 1)); simpl; tauto|].
  split; [apply (Hfields "profit" (JInt 0)); simpl; tauto|].
  split; [apply (Hfields "liqPrice" JNull); simpl; tauto|].
  exact Hstamp.
Defined.

(** C8 as stated fails on the stamp: when the clock gives the same
    millisecond to both posts, the second [updatedAt] equals the first and
    is not strictly greater. *)
Lemma C8_counterexample :
  let w := frozen_world (NetError "unused") in
  let s1 := snd (Server.update_bot w (JObj bot1_payload) initial_state) in
  let s2 := snd (Server.update_bot w (JObj bot1_update) s1) in
  updated_at (MANUAL_BOT_DATA s1) "bot1" = Some 1700000000000
  /\ updated_at (MANUAL_BOT_DATA s2) "bot1" = Some 1700000000000
  /\ ~ (exists t1 t2,
           updated_at (MANUAL_BOT_DATA s1) "bot1" = Some t1
           /\ updated_at (MANUAL_BOT_DATA s2) "bot1" = Some t2
           /\ t1 < t2).
Proof.
  intros w s1 s2. split; [reflexivity|]. split; [reflexivity|].
  intros [t1 [t2 [H1 [H2 Hlt]]]].
  vm_compute in H1, H2. inversion H1. inversion H2. subst. lia.
Qed.

(** C8, amended.  Posting twice in a row with the same name overwrites:
    after both posts the store (a dictionary, one entry per key) has
    exactly one entry for that name, the entry is the record built from the
    second payload, and its [updatedAt] is the clock reading of the second
    post, the first post having stamped the reading before it; so the stamp
    is strictly greater than the first one exactly when the millisecond
    clock has advanced between the two posts. *)
Theorem C8_second_post_overwrites
        (w : World) (fields1 fields2 : list (string * json)) (name : string)
        (s : State) :
  NoDup (dict_keys (MANUAL_BOT_DATA s)) ->
  name <> "" ->
  dict_get String.eqb fields1 "name" = Some (JStr name) ->
  dict_get String.eqb fields2 "name" = Some (JStr name) ->
  let s1 := snd (Server.update_bot w (JObj fields1) s) in
  let s2 := snd (Server.update_bot w (JObj fields2) s1) in
  let t1 := clock w (readings s) in
  let t2 := clock w (S (readings s)) in
  List.length (entries_for (MANUAL_BOT_DATA s2) (KStr name)) = 1%nat
  /\ dict_get pykey_eqb (MANUAL_BOT_DATA s2) (KStr name)
     = Some (Server.bot_record fields2 (JStr name) t2)
  /\ (forall f d, In (f, d) bot_defaults ->
        json_field (Server.bot_record fields2 (JStr name) t2) f
        = Some (match dict_get String.eqb fields2 f with
                | Some v => v
                | None => d
                end))
  /\ updated_at (MANUAL_BOT_DATA s1) name = Some t1
  /\ updated_at (MANUAL_BOT_DATA s2) name = Some t2
  /\ (forall u1 u2,
        updated_at (MANUAL_BOT_DATA s1) name = Some u1 ->
        updated_at (MANUAL_BOT_DATA s2) name = Some u2 ->
        (u1 < u2 <-> t1 < t2)).
Proof.
  intros Hnd Hne H1 H2 s1 s2 t1 t2.
  assert (Hrun : forall fields st,
             dict_get String.eqb fields "name" = Some (JStr name) ->
             Server.update_bot w (JObj fields) st
             = (Returned (200, JObj [ ("result", JBool true);
                                      ("data", Server.bot_record fields (JStr name)
                                                 (clock w (readings st))) ]),
                {| readings := S (readings st); calls := calls st;
                   MANUAL_BOT_DATA :=
                     dict_set pykey_eqb (MANUAL_BOT_DATA st) (KStr name)
                       (Server.bot_record fields (JStr name)
                          (clock w (readings st))) |})).
  { intros fields st Hf.
    assert (Hget : get_default fields "name" JNull = JStr name)
      by now apply get_default_found.
    assert (Ht : truthy (get_default fields "name" JNull) = true).
    { rewrite Hget. destruct name; [contradiction|reflexivity]. }
    assert (Hk : hash_key (get_default fields "name" JNull) = Some (KStr name))
      by now rewrite Hget.
    pose proof (update_bot_stored w fields st _ Ht Hk) as Hr.
    now rewrite Hget in Hr. }
  assert (Hs1 : MANUAL_BOT_DATA s1
                = dict_set pykey_eqb (MANUAL_BOT_DATA s) (KStr name)
                    (Server.bot_record fields1 (JStr name) t1)).
  { subst s1. now rewrite (Hrun fields1 s H1). }
  assert (Hr1 : readings s1 = S (readings s)).
  { subst s1. now rewrite (Hrun fields1 s H1). }
  assert (Hs2 : MANUAL_BOT_DATA s2
                = dict_set pykey_eqb (MANUAL_BOT_DATA s1) (KStr name)
                    (Server.bot_record fields2 (JStr name) t2)).
  { subst s2. rewrite (Hrun fields2 s1 H2). cbn [snd MANUAL_BOT_DATA].
    now rewrite Hr1. }
  assert (Hu1 : updated_at (MANUAL_BOT_DATA s1) name = Some t1).
  { unfold updated_at. rewrite Hs1, (dict_get_set_same _ pykey_eqb_eq). reflexivity. }
  assert (Hu2 : updated_at (MANUAL_BOT_DATA s2) name = Some t2).
  { unfold updated_at. rewrite Hs2, (dict_get_set_same _ pykey_eqb_eq). reflexivity. }
  split; [|split; [|split; [|split; [|split]]]].
  - unfold entries_for. apply (nodup_one_entry _ pykey_eqb_eq).
    + rewrite Hs2, Hs1. now do 2 apply (dict_set_nodup _ pykey_eqb_eq).
    + apply (dict_get_some_keys _ pykey_eqb_eq) with
        (v := Server.bot_record fields2 (JStr name) t2).
      rewrite Hs2. apply (dict_get_set_same _ pykey_eqb_eq).
  - rewrite Hs2. apply (dict_get_set_same _ pykey_eqb_eq).
  - intros f d Hin. now apply bot_record_defaults.
  - exact Hu1.
  - exact Hu2.
  - intros u1 u2 E1 E2. rewrite Hu1 in E1. rewrite Hu2 in E2.
    inversion E1. inversion E2. subst. reflexivity.
Qed.

Lemma C8_witness :
  let w := example_world (NetError "unused") in
  let s1 := snd (Server.update_bot w (JObj bot1_payload) initial_state) in
  let s2 := snd (Server.update_bot w (JObj bot1_update) s1) in
  NoDup (dict_keys (MANUAL_BOT_DATA initial_state))
  /\ "bot1" <> ""
  /\ dict_get String.eqb bot1_payload "name" = Some (JStr "bot1")
  /\ dict_get String.eqb bot1_update "name" = Some (JStr "bot1")
  /\ List.length (entries_for (MANUAL_BOT_DATA s2) (KStr "bot1")) = 1%nat
  /\ updated_at (MANUAL_BOT_DATA s1) "bot1" = Some 1700000000000
  /\ updated_at (MANUAL_BOT_DATA s2) "bot1" = Some 1700000000007.
Proof.
  intros w s1 s2.
  assert (Hnd : NoDup (dict_keys (MANUAL_BOT_DATA initial_state))) by constructor.
  assert (Hne : "bot1" <> "") by discriminate.
  destruct (C8_second_post_overwrites w bot1_payload bot1_update "bot1"
              initial_state Hnd Hne eq_refl eq_refl)
    as [Hone [_ [_ [Hu1 [Hu2 _]]]]].
  repeat split; assumption.
Defined.

(** ** Deleting *)

Lemma delete_bot_absent name s :
  dict_mem pykey_eqb (MANUAL_BOT_DATA s) (KStr name) = false ->
  Server.delete_bot name s = ((404, JObj [("error", JStr "Bot not found")]), s).
Proof.
  intros H. unfold Server.delete_bot, bind, get_store. now rewrite H.
Qed.

Lemma delete_bot_present name s :
  dict_mem pykey_eqb (MANUAL_BOT_DATA s) (KStr name) = true ->
  Server.delete_bot name s
  = ((200, JObj [("result", JBool true)]),
     {| readings := readings s; calls := calls s;
        MANUAL_BOT_DATA := dict_del pykey_eqb (MANUAL_BOT_DATA s) (KStr name) |}).
Proof.
  intros H. unfold Server.delete_bot, bind, get_store. now rewrite H.
Qed.

Lemma get_bots_run s :
  Server.get_bots s
  = ((200, JObj [ ("result", JBool true);
                  ("data", JObj [("bots", JArr (dict_values (MANUAL_BOT_DATA s)))]) ]),
     s).
Proof. reflexivity. Qed.

Lemma hash_key_str (v : json) (name : string) :
  hash_key v = Some (KStr name) -> v = JStr name.
Proof.
  destruct v as [| b | n | m e | t | items | fields]; simpl; try discriminate.
  - destruct b; discriminate.
  - unfold norm_num. destruct n as [|p|p]; try discriminate;
      destruct (strip2 p 0); discriminate.
  - unfold norm_num. destruct m as [|p|p]; try discriminate;
      destruct (strip2 p e); discriminate.
  - congruence.
Qed.

(** C9. [DELETE /api/bots/{name}] for a name that is not a key of the
    store answers 404 with an error and leaves the state as it was.  For a
    name that is a key it answers 200 with [result:true] and the store
    keeps exactly the entries of the other keys, in their order and with
    their records: the name is no longer a key, every other key holds what
    it held, a [GET /api/bots] that follows lists the records of those
    other entries, and (every record carrying the name it is stored
    under) none of them has the deleted name. *)
Theorem C9_delete_bot (name : string) (s : State) :
  (dict_mem pykey_eqb (MANUAL_BOT_DATA s) (KStr name) = false ->
   Server.delete_bot name s = ((404, JObj [("error", JStr "Bot not found")]), s))
  /\ (dict_mem pykey_eqb (MANUAL_BOT_DATA s) (KStr name) = true ->
      let s' := snd (Server.delete_bot name s) in
      fst (Server.delete_bot name s) = (200, JObj [("result", JBool true)])
      /\ readings s' = readings s
      /\ calls s' = calls s
      /\ MANUAL_BOT_DATA s' = entries_but (MANUAL_BOT_DATA s) (KStr name)
      /\ dict_mem pykey_eqb (MANUAL_BOT_DATA s') (KStr name) = false
      /\ (forall k, k <> KStr name ->
            dict_get pykey_eqb (MANUAL_BOT_DATA s') k
            = dict_get pykey_eqb (MANUAL_BOT_DATA s) k)
      /\ bots_of (fst (Server.get_bots s'))
         = dict_values (entries_but (MANUAL_BOT_DATA s) (KStr name))
      /\ (store_invariant (MANUAL_BOT_DATA s) ->
          forall r, In r (bots_of (fst (Server.get_bots s'))) ->
                    json_field r "name" <> Some (JStr name))).
Proof.
  split; [apply delete_bot_absent|].
  intros Hmem s'. subst s'. rewrite (delete_bot_present name s Hmem).
  cbn [fst snd readings calls MANUAL_BOT_DATA].
  rewrite get_bots_run. unfold bots_of. cbn [fst snd json_field dict_get String.eqb].
  simpl.
  repeat split.
  - apply (dict_del_filter pykey_eqb).
  - unfold dict_mem. now rewrite (dict_get_del_same pykey_eqb).
  - intros k Hk. now apply (dict_get_del_other _ pykey_eqb_eq).
  - now rewrite (dict_del_filter pykey_eqb).
  - intros [_ Hall] r Hin Hr.
    rewrite (dict_del_filter pykey_eqb) in Hin.
    unfold dict_values in Hin. apply in_map_iff in Hin.
    destruct Hin as [[k r'] [Heq Hin]]. simpl in Heq. subst r'.
    apply filter_In in Hin. destruct Hin as [Hin Hk]. simpl in Hk.
    rewrite Forall_forall in Hall. specialize (Hall _ Hin). simpl in Hall.
    destruct Hall as [fields [-> [_ [v [Hv Hh]]]]].
    simpl in Hr. rewrite Hv in Hr. inversion Hr. subst v.
    simpl in Hh. inversion Hh. subst k.
    simpl in Hk. now rewrite String.eqb_refl in Hk.
Qed.

Lemma C9_witness :
  let w := example_world (NetError "unused") in
  let s1 := snd (Server.update_bot w (JObj bot1_payload) initial_state) in
  dict_mem pykey_eqb (MANUAL_BOT_DATA initial_state) (KStr "bot1") = false
  /\ Server.delete_bot "bot1" initial_state
     = ((404, JObj [("error", JStr "Bot not found")]), initial_state)
  /\ dict_mem pykey_eqb (MANUAL_BOT_DATA s1) (KStr "bot1") = true
  /\ fst (Server.delete_bot "bot1" s1) = (200, JObj [("result", JBool true)])
  /\ bots_of (fst (Server.get_bots (snd (Server.delete_bot "bot1" s1)))) = [].
Proof.
  intros w s1.
  destruct (C9_delete_bot "bot1" initial_state) as [Habsent _].
  destruct (C9_delete_bot "bot1" s1) as [_ Hpresent].
  destruct (Hpresent eq_refl) as [Hres [_ [_ [_ [_ [_ [Hbots _]]]]]]].
  split; [reflexivity|]. split; [exact (Habsent eq_refl)|].
  split; [reflexivity|]. split; [exact Hres|].
  rewrite Hbots. reflexivity.
Defined.

(** ** The invariant of the store *)

Lemma bot_record_ok fields name now k :
  hash_key name = Some k -> record_ok k (Server.bot_record fields name now).
Proof.
  intros Hk. eexists. split; [reflexivity|]. split; [reflexivity|].
  exists name. split; [reflexivity|exact Hk].
Qed.

Lemma store_invariant_set store k r :
  store_invariant store -> record_ok k r ->
  store_invariant (dict_set pykey_eqb store k r).
Proof.
  intros [Hnd Hall] Hr. split.
  - now apply (dict_set_nodup _ pykey_eqb_eq).
  - rewrite Forall_forall in *. intros kv Hin.
    destruct (dict_set_in _ pykey_eqb_eq _ _ _ _ Hin) as [Hold|[Hv Hk]].
    + now apply Hall.
    + apply pykey_eqb_eq in Hk. now rewrite Hv, <- Hk.
Qed.

Lemma store_invariant_del store k :
  store_invariant store -> store_invariant (dict_del pykey_eqb store k).
Proof.
  intros [Hnd Hall]. split.
  - now apply dict_del_nodup.
  - rewrite (dict_del_filter pykey_eqb). rewrite Forall_forall in *.
    intros kv Hin. apply filter_In in Hin. now apply Hall.
Qed.

Lemma update_bot_invariant w data s :
  store_invariant (MANUAL_BOT_DATA s) ->
  store_invariant (MANUAL_BOT_DATA (snd (Server.update_bot w data s))).
Proof.
  intros Hinv. destruct data as [| b | n | m e | t | items | fields];
    try exact Hinv.
  destruct (truthy (get_default fields "name" JNull)) eqn:Ht.
  - destruct (hash_key (get_default fields "name" JNull)) as [k|] eqn:Hk.
    + rewrite (update_bot_stored w fields s k Ht Hk). cbn [snd MANUAL_BOT_DATA].
      apply store_invariant_set; [exact Hinv|now apply bot_record_ok].
    + now rewrite (update_bot_unhashable w fields s Ht Hk).
  - now rewrite (update_bot_rejected w fields s Ht).
Qed.

Lemma delete_bot_invariant name s :
  store_invariant (MANUAL_BOT_DATA s) ->
  store_invariant (MANUAL_BOT_DATA (snd (Server.delete_bot name s))).
Proof.
  intros Hinv.
  destruct (dict_mem pykey_eqb (MANUAL_BOT_DATA s) (KStr name)) eqn:Hmem.
  - rewrite (delete_bot_present name s Hmem). cbn [snd MANUAL_BOT_DATA].
    now apply store_invariant_del.
  - now rewrite (delete_bot_absent name s Hmem).
Qed.

Lemma pionex_request_keeps_store cfg lib w method endpoint params body s :
  MANUAL_BOT_DATA (snd (Server.pionex_request cfg lib w method endpoint params body s))
  = MANUAL_BOT_DATA s.
Proof.
  destruct (credentials_missing cfg) eqn:Hc.
  - now rewrite server_pionex_request_unconfigured.
  - destruct (forwarded method) eqn:Hm.
    + now rewrite (server_pionex_request_run _ _ _ _ _ _ _ _ Hc Hm).
    + now rewrite (server_pionex_request_unsupported _ _ _ _ _ _ _ _ Hc Hm).
Qed.

Lemma run_invariant cfg lib w s op :
  store_invariant (MANUAL_BOT_DATA s) ->
  store_invariant (MANUAL_BOT_DATA (run cfg lib w s op)).
Proof.
  intros Hinv. destruct op as [|data|name|method endpoint params body]; simpl.
  - exact Hinv.
  - now apply update_bot_invariant.
  - now apply delete_bot_invariant.
  - now rewrite pionex_request_keeps_store.
Qed.

Lemma run_all_invariant cfg lib w ops :
  forall s, store_invariant (MANUAL_BOT_DATA s) ->
            store_invariant (MANUAL_BOT_DATA (run_all cfg lib w ops s)).
Proof.
  unfold run_all. induction ops as [|op ops IH]; intros s Hinv; simpl.
  - exact Hinv.
  - apply IH. now apply run_invariant.
Qed.

(** C10. After any sequence of operations from the empty store
    ([GET /api/bots], [POST /api/bots] with any payload,
    [DELETE /api/bots/{name}], proxied requests), the store has one entry
    per key and each stored record is an object with exactly the ten
    fields [name], [pair], [leverage], [investment], [profit],
    [profitPercent], [lastPrice], [markPrice], [liqPrice], [updatedAt];
    its [name] is the value whose key it is stored under, which for a
    string key is that very string; and the record built from a payload
    has no field outside the ten, whatever else the payload carries. *)
Theorem C10_store_invariant
        (cfg : Config) (lib : JsonLib) (w : World) (ops : list operation) :
  let store := MANUAL_BOT_DATA (run_all cfg lib w ops initial_state) in
  NoDup (dict_keys store)
  /\ (forall k r,
        In (k, r) store ->
        exists fields,
          r = JObj fields
          /\ dict_keys fields = bot_fields
          /\ (exists name, json_field r "name" = Some name
                           /\ hash_key name = Some k)
          /\ (forall text, k = KStr text -> json_field r "name" = Some (JStr text)))
  /\ (forall payload name now extra,
        ~ In extra bot_fields ->
        json_field (Server.bot_record payload name now) extra = None).
Proof.
  intros store.
  assert (Hinv : store_invariant store).
  { apply run_all_invariant. split; constructor. }
  destruct Hinv as [Hnd Hall]. split; [exact Hnd|]. split.
  - intros k r Hin. rewrite Forall_forall in Hall.
    destruct (Hall _ Hin) as [fields [Hr [Hkeys [name [Hname Hk]]]]].
    simpl in Hr, Hk. exists fields. split; [exact Hr|]. split; [exact Hkeys|].
    rewrite Hr. simpl. split.
    + exists name. now split.
    + intros text ->. apply hash_key_str in Hk. now rewrite Hname, Hk.
  - intros payload name now extra Hextra.
    unfold Server.bot_record, json_field.
    apply (dict_get_none_keys _ String.eqb_eq). exact Hextra.
Qed.

Lemma C10_witness :
  let ops := [ PostBot (JObj bot1_payload); PostBot (JObj bot1_update);
               DeleteBot "bot2"; GetBots ] in
  let store := MANUAL_BOT_DATA
                 (run_all example_cfg example_lib
                    (example_world (NetError "unused")) ops initial_state) in
  exists r fields,
    In (KStr "bot1", r) store
    /\ r = JObj fields
    /\ dict_keys fields = bot_fields
    /\ json_field r "name" = Some (JStr "bot1")
    /\ json_field r "comment" = None.
Proof.
  intros ops store.
  destruct (C10_store_invariant example_cfg example_lib
              (example_world (NetError "unused")) ops) as [_ [Hrecords _]].
  assert (Hin : In (KStr "bot1",
                    Server.bot_record bot1_update (JStr "bot1") 1700000000007)
                   store) by (left; reflexivity).
  destruct (Hrecords _ _ Hin) as [fields [Hr [Hkeys [_ Hname]]]].
  exists (Server.bot_record bot1_update (JStr "bot1") 1700000000007), fields.
  split; [exact Hin|]. split; [exact Hr|]. split; [exact Hkeys|].
  split; [exact (Hname "bot1" eq_refl)|reflexivity].
Defined.

(** A run of the store: two posts of one name, a post of a numeric name, a
    delete. *)
Example store_run :
  dict_keys (MANUAL_BOT_DATA
               (run_all example_cfg example_lib (example_world (NetError "unused"))
                  [ PostBot (JObj bot1_payload);
                    PostBot (JObj [("name", JStr "bot2")]);
                    PostBot (JObj bot1_update);
                    PostBot (JObj [("name", JInt 12)]);
                    PostBot (JObj [("name", JFloat 3 2)]);
                    DeleteBot "bot2";
                    GetBots ]
                  initial_state))
  = [KStr "bot1"; KNum 3 2].
Proof. reflexivity. Qed.

(** * Further properties of the code *)

(** ** The shape of a signature *)

Lemma hex_length (bs : list Z) : String.length (hex bs) = (2 * List.length bs)%nat.
Proof.
  induction bs as [|b bs IH]; simpl; [reflexivity|]. rewrite IH. lia.
Qed.

Lemma be_bytes_length (n : nat) (x : Z) : List.length (SHA256.be_bytes n x) = n.
Proof. induction n as [|n IH]; simpl; congruence. Qed.

Lemma be_bytes_range (n : nat) (x : Z) :
  Forall (fun b => 0 <= b < 256) (SHA256.be_bytes n x).
Proof.
  induction n as [|n IH]; simpl; constructor; [|exact IH].
  apply Z.mod_pos_bound. lia.
Qed.

Lemma compress_length (h block : list Z) :
  List.length h = 8%nat -> List.length (SHA256.compress h block) = 8%nat.
Proof.
  intros Hh. unfold SHA256.compress.
  rewrite length_map, length_combine, Hh. reflexivity.
Qed.

Lemma blocks_length (n : nat) :
  forall bs h, List.length h = 8%nat -> List.length (SHA256.blocks n bs h) = 8%nat.
Proof.
  induction n as [|n IH]; intros bs h Hh; simpl; [exact Hh|].
  apply IH. now apply compress_length.
Qed.

Lemma flat_map_be_bytes_length (ws : list Z) :
  List.length (flat_map (SHA256.be_bytes 4) ws) = (4 * List.length ws)%nat.
Proof.
  induction ws as [|x ws IH]; [reflexivity|].
  cbn [flat_map]. rewrite length_app, be_bytes_length, IH. simpl. lia.
Qed.

Lemma flat_map_be_bytes_range (ws : list Z) :
  Forall (fun b => 0 <= b < 256) (flat_map (SHA256.be_bytes 4) ws).
Proof.
  induction ws as [|x ws IH]; [constructor|].
  cbn [flat_map]. apply Forall_app. split; [apply be_bytes_range|exact IH].
Qed.

Lemma sha256_digest_length (msg : list Z) : List.length (SHA256.digest msg) = 32%nat.
Proof.
  unfold SHA256.digest. rewrite flat_map_be_bytes_length, blocks_length; reflexivity.
Qed.

Lemma sha256_digest_range (msg : list Z) :
  Forall (fun b => 0 <= b < 256) (SHA256.digest msg).
Proof. unfold SHA256.digest. apply flat_map_be_bytes_range. Qed.

Lemma hex_digit_is_hex (d : Z) : 0 <= d < 16 -> is_hex_char (hex_digit d) = true.
Proof.
  intros Hd.
  assert (H : d = 0 \/ d = 1 \/ d = 2 \/ d = 3 \/ d = 4 \/ d = 5 \/ d = 6 \/ d = 7
              \/ d = 8 \/ d = 9 \/ d = 10 \/ d = 11 \/ d = 12 \/ d = 13
              \/ d = 14 \/ d = 15) by lia.
  repeat (destruct H as [->|H]; [reflexivity|]). now subst.
Qed.

Lemma hex_all_hex (bs : list Z) :
  Forall (fun b => 0 <= b < 256) bs -> all_chars is_hex_char (hex bs) = true.
Proof.
  induction 1 as [|b bs Hb _ IH]; simpl; [reflexivity|].
  rewrite IH, !hex_digit_is_hex; [reflexivity| |].
  - apply Z.mod_pos_bound. lia.
  - split; [apply Z.div_pos; lia|apply Z.div_lt_upper_bound; lia].
Qed.

Lemma hmac_hexdigest_shape (key msg : list Z) :
  String.length (hmac_sha256_hexdigest key msg) = 64%nat
  /\ all_chars is_hex_char (hmac_sha256_hexdigest key msg) = true.
Proof.
  unfold hmac_sha256_hexdigest, HMAC.digest. split.
  - now rewrite hex_length, sha256_digest_length.
  - apply hex_all_hex, sha256_digest_range.
Qed.

(** X1. Whatever the secret, the method, the path, the query, the body and
    the time, the signature that [generate_signature] returns is a string
    of exactly 64 lower-case hexadecimal digits, in the three files. *)
Theorem X1_signature_is_64_hex_digits
        (cfg : Config) (w : World) (method path query body : string) (s : State) :
  let shape sig := String.length sig = 64%nat /\ all_chars is_hex_char sig = true in
  shape (fst (fst (Server.generate_signature cfg w method path query body s)))
  /\ shape (fst (fst (Index.generate_signature cfg w method path query body s)))
  /\ shape (fst (fst (Positions.generate_signature cfg w method path query s))).
Proof.
  intros shape.
  rewrite server_generate_signature_run, index_generate_signature_run,
    positions_generate_signature_run.
  cbn [fst]. unfold shape, signature_of.
  repeat split; apply hmac_hexdigest_shape.
Qed.

(** ** Parameters without a value *)

Lemma insert_item_first (x : string * pyval) (l : list (string * pyval)) :
  Forall (fun z => item_leb x z = true) l -> insert_item x l = x :: l.
Proof. destruct 1 as [|z l Hz _]; simpl; [reflexivity|now rewrite Hz]. Qed.

Lemma filter_insert_item (f : string * pyval -> bool) (x : string * pyval)
      (l : list (string * pyval)) :
  keys_ascending l ->
  filter f (insert_item x l)
  = if f x then insert_item x (filter f l) else filter f l.
Proof.
  unfold keys_ascending, dict_keys.
  induction l as [|y l IH]; intros Hs.
  - simpl. now destruct (f x).
  - inversion Hs as [|? ? Hl Hy]; subst. cbn [insert_item].
    destruct (item_leb x y) eqn:Hxy.
    + cbn [filter]. destruct (f x); [|reflexivity].
      destruct (f y); [cbn [insert_item]; now rewrite Hxy|].
      symmetry. apply insert_item_first.
      rewrite Forall_forall in *. intros z Hz. apply filter_In in Hz.
      unfold item_leb in *. apply string_leb_trans with (fst y); [exact Hxy|].
      apply Hy. apply in_map. tauto.
    + cbn [filter]. rewrite (IH Hl).
      destruct (f y), (f x); cbn [insert_item]; now rewrite ?Hxy.
Qed.

Lemma filter_sorted (f : string * pyval -> bool) (l : list (string * pyval)) :
  filter f (sorted l) = sorted (filter f l).
Proof.
  induction l as [|x l IH]; [reflexivity|].
  cbn [sorted filter]. rewrite filter_insert_item by apply sorted_ascending.
  rewrite IH. now destruct (f x).
Qed.

Lemma filter_twice {A : Type} (f : A -> bool) (l : list A) :
  filter f (filter f l) = filter f l.
Proof.
  induction l as [|x l IH]; [reflexivity|].
  simpl. destruct (f x) eqn:E; simpl; now rewrite ?E, IH.
Qed.

Lemma query_string_drops_none (items : list (string * pyval)) :
  build_query_string (Some items)
  = build_query_string (Some (filter has_value items)).
Proof.
  rewrite !build_query_string_sorted.
  now rewrite !filter_sorted, filter_twice.
Qed.

(** X2. A parameter whose value is [None] has no effect on the query
    string: the dictionary without its [None]-valued items gives the same
    string, wherever those items stand. *)
Theorem X2_none_valued_parameters_have_no_effect (items : list (string * pyval)) :
  build_query_string (Some items)
  = build_query_string (Some (filter has_value items)).
Proof.
  rewrite !build_query_string_sorted.
  rewrite (filter_sorted has_value (filter has_value items)).
  rewrite filter_twice.
  now rewrite filter_sorted.
Qed.

Lemma filter_none (items : list (string * pyval)) :
  Forall (fun kv => snd kv = PNone) items -> filter has_value items = [].
Proof.
  induction 1 as [|[k v] l Hv _ IH]; [reflexivity|].
  simpl in Hv. subst v. exact IH.
Qed.

(** X3. When [params] is [None], an empty dictionary or a dictionary whose
    values are all [None], the query string is empty; with credentials set,
    the one request of [pionex_request] then goes to
    [https://api.pionex.com{endpoint}?timestamp={ts}], in the three files
    ([server.py] for a method that it forwards), and what is signed is
    [{method}{endpoint}?timestamp={ts}] followed by the body text. *)
Theorem X3_no_parameters_timestamp_only
        (cfg : Config) (lib : JsonLib) (w : World) (method endpoint : string)
        (params : option (list (string * pyval)))
        (body : option (list (string * json))) (s : State) :
  params = None
  \/ (exists items, params = Some items
                    /\ Forall (fun kv => snd kv = PNone) items) ->
  credentials_missing cfg = false ->
  let ts := clock w (readings s) in
  let url := "https://api.pionex.com" ++ endpoint ++ "?timestamp=" ++ str_of_int ts in
  build_query_string params = ""
  /\ (exists r, calls (snd (Index.pionex_request cfg lib w method endpoint params s))
                = (calls s ++ [r])%list
                /\ req_url r = url
                /\ signature_header r
                   = Some (hmac_sha256_hexdigest
                             (encode_utf8 (PIONEX_API_SECRET cfg))
                             (encode_utf8 (method ++ endpoint ++ "?timestamp="
                                                  ++ str_of_int ts))))
  /\ (exists r, calls (snd (Positions.pionex_request cfg lib w endpoint params s))
                = (calls s ++ [r])%list
                /\ req_url r = url)
  /\ (forwarded method = true ->
      exists r, calls (snd (Server.pionex_request cfg lib w method endpoint
                              params body s))
                = (calls s ++ [r])%list
                /\ req_url r = url
                /\ signature_header r
                   = Some (hmac_sha256_hexdigest
                             (encode_utf8 (PIONEX_API_SECRET cfg))
                             (encode_utf8 (method ++ endpoint ++ "?timestamp="
                                                  ++ str_of_int ts
                                                  ++ Server.body_str lib body)))).
Proof.
  intros Hp Hc ts url.
  assert (Hq : build_query_string params = "").
  { destruct Hp as [->|[items [-> Hnone]]]; [reflexivity|].
    rewrite query_string_drops_none, (filter_none _ Hnone).
    reflexivity. }
  split; [exact Hq|]. split; [|split].
  - rewrite (index_pionex_request_run _ _ _ _ _ _ _ Hc). cbn [snd after_call calls].
    eexists. split; [reflexivity|]. rewrite Hq. split; [reflexivity|].
    cbn. unfold signature_of, string_to_sign. cbn [timestamp_suffix].
    now rewrite append_empty_r.
  - rewrite (positions_pionex_request_run _ _ _ _ _ _ Hc). cbn [snd after_call calls].
    eexists. split; [reflexivity|]. now rewrite Hq.
  - intros Hm.
    rewrite (server_pionex_request_run _ _ _ _ _ _ _ _ Hc Hm).
    cbn [snd after_call calls].
    eexists. split; [reflexivity|]. rewrite Hq. split; reflexivity.
Qed.

Lemma X3_witness :
  let params := Some [("symbol", PNone); ("limit", PNone)] in
  let w := example_world (HttpReply 200 "{}") in
  credentials_missing example_cfg = false
  /\ build_query_string params = ""
  /\ exists r, calls (snd (Positions.pionex_request example_cfg example_lib w
                             "/api/v1/futures/positions" params initial_state))
               = ([] ++ [r])%list
               /\ req_url r
                  = "https://api.pionex.com/api/v1/futures/positions?timestamp=1700000000000".
Proof.
  intros params w.
  assert (Hp : params = None
               \/ exists items, params = Some items
                                /\ Forall (fun kv => snd kv = PNone) items).
  { right. eexists. split; [reflexivity|]. repeat constructor. }
  destruct (X3_no_parameters_timestamp_only example_cfg example_lib w "GET"
              "/api/v1/futures/positions" params None initial_state Hp eq_refl)
    as [Hq [_ [Hpos _]]].
  split; [reflexivity|]. split; [exact Hq|]. exact Hpos.
Defined.

(** ** What [pionex_request] makes of the reply *)



Lemma urllib_receive_2xx lib code text :
  is_2xx code = true ->
  urllib_receive lib (HttpReply code text)
  = Returned (match json_loads lib text with
              | inl v => v
              | inr msg => JObj [("error", JStr msg); ("result", JBool false)]
              end).
Proof.
  unfold urllib_receive, is_2xx. intros ->. now destruct (json_loads lib text).
Qed.

(** X5. With credentials set, when the upstream answers with a 2xx status,
    [pionex_request] of [api/index.py] and of [api/positions.py] returns
    the parsed body unchanged, whatever JSON value it is; and a 2xx body
    that is not JSON gives [{"error": <parser message>, "result": false}]
    instead of an exception. *)
Theorem X5_success_is_passed_through
        (cfg : Config) (lib : JsonLib) (w : World) (method endpoint : string)
        (params : option (list (string * pyval))) (s : State)
        (code : Z) (text : string) :
  credentials_missing cfg = false ->
  200 <= code < 300 ->
  (forall r, upstream w (List.length (calls s)) r = HttpReply code text) ->
  (forall v, json_loads lib text = inl v ->
             fst (Index.pionex_request cfg lib w method endpoint params s)
             = Returned v
             /\ fst (Positions.pionex_request cfg lib w endpoint params s)
                = Returned v)
  /\ (forall msg, json_loads lib text = inr msg ->
                  fst (Index.pionex_request cfg lib w method endpoint params s)
                  = Returned (JObj [("error", JStr msg); ("result", JBool false)])
                  /\ fst (Positions.pionex_request cfg lib w endpoint params s)
                     = Returned (JObj [("error", JStr msg);
                                       ("result", JBool false)])).
Proof.
  intros Hc Hcode Hreply.
  assert (H2 : is_2xx code = true).
  { unfold is_2xx. apply andb_true_iff. split; [apply Z.leb_le|apply Z.ltb_lt]; lia. }
  rewrite (index_pionex_request_run _ _ _ _ _ _ _ Hc).
  rewrite (positions_pionex_request_run _ _ _ _ _ _ Hc).
  cbn [fst]. rewrite !Hreply, (urllib_receive_2xx _ _ _ H2).
  split; intros x Hx; rewrite Hx; split; reflexivity.
Qed.

Lemma X5_witness :
  credentials_missing example_cfg = false
  /\ 200 <= 200 < 300
  /\ json_loads example_lib "{}" = inl (JObj [])
  /\ fst (Index.pionex_request example_cfg example_lib
            (example_world (HttpReply 200 "{}")) "GET"
            "/api/v1/futures/positions" None initial_state) = Returned (JObj [])
  /\ json_loads example_lib "<html>" = inr "Expecting value: line 1 column 1 (char 0)"
  /\ fst (Positions.pionex_request example_cfg example_lib
            (example_world (HttpReply 200 "<html>"))
            "/api/v1/futures/positions" None initial_state)
     = Returned (JObj [ ("error", JStr "Expecting value: line 1 column 1 (char 0)");
                        ("result", JBool false) ]).
Proof.
  assert (Hcode : 200 <= 200 < 300) by lia.
  destruct (X5_success_is_passed_through example_cfg example_lib
              (example_world (HttpReply 200 "{}")) "GET"
              "/api/v1/futures/positions" None initial_state 200 "{}"
              eq_refl Hcode (fun _ => eq_refl)) as [Hok _].
  destruct (X5_success_is_passed_through example_cfg example_lib
              (example_world (HttpReply 200 "<html>")) "GET"
              "/api/v1/futures/positions" None initial_state 200 "<html>"
              eq_refl Hcode (fun _ => eq_refl)) as [_ Hbad].
  split; [reflexivity|]. split; [exact Hcode|]. split; [reflexivity|].
  split; [exact (proj1 (Hok _ eq_refl))|]. split; [reflexivity|].
  exact (proj2 (Hbad _ eq_refl)).
Defined.

(** X6. [pionex_request] of [server.py] forwards the methods [GET], [POST]
    and [DELETE], spelled so, and no other: for any other method, with
    credentials set, it signs (one clock reading), makes no upstream call
    and returns [{"error": "Unsupported method: <method>"}]. *)
Theorem X6_server_rejects_other_methods
        (cfg : Config) (lib : JsonLib) (w : World) (method endpoint : string)
        (params : option (list (string * pyval)))
        (body : option (list (string * json))) (s : State) :
  credentials_missing cfg = false ->
  method <> "GET" -> method <> "POST" -> method <> "DELETE" ->
  Server.pionex_request cfg lib w method endpoint params body s
  = (Returned (JObj [("error", JStr ("Unsupported method: " ++ method))]),
     after_reading s).
Proof.
  intros Hc HG HP HD. apply server_pionex_request_unsupported; [exact Hc|].
  unfold forwarded.
  apply String.eqb_neq in HG, HP, HD. now rewrite HG, HP, HD.
Qed.

Lemma X6_witness :
  credentials_missing example_cfg = false
  /\ "get" <> "GET" /\ "get" <> "POST" /\ "get" <> "DELETE"
  /\ Server.pionex_request example_cfg example_lib
       (example_world (HttpReply 200 "{}")) "get" "/api/v1/futures/positions"
       None None initial_state
     = (Returned (JObj [("error", JStr "Unsupported method: get")]),
        after_reading initial_state).
Proof.
  assert (H1 : "get" <> "GET") by discriminate.
  assert (H2 : "get" <> "POST") by discriminate.
  assert (H3 : "get" <> "DELETE") by discriminate.
  split; [reflexivity|]. split; [exact H1|]. split; [exact H2|].
  split; [exact H3|].
  exact (X6_server_rejects_other_methods example_cfg example_lib
           (example_world (HttpReply 200 "{}")) "get" "/api/v1/futures/positions"
           None None initial_state eq_refl H1 H2 H3).
Defined.

(** X7. With credentials set, the request that [pionex_request] of
    [server.py] sends for a forwarded method has that method, a timeout of
    10, and exactly the three headers [PIONEX-KEY] (the configured key),
    [PIONEX-SIGNATURE] and [Content-Type: application/json].  The signature
    always covers the compact text of a non-empty body, but only [POST]
    and [DELETE] carry the body: a [GET] is sent without it. *)
Theorem X7_server_request_shape
        (cfg : Config) (lib : JsonLib) (w : World) (method endpoint : string)
        (params : option (list (string * pyval)))
        (body : option (list (string * json))) (s : State) :
  credentials_missing cfg = false ->
  method = "GET" \/ method = "POST" \/ method = "DELETE" ->
  exists r,
    calls (snd (Server.pionex_request cfg lib w method endpoint params body s))
    = (calls s ++ [r])%list
    /\ req_method r = method
    /\ req_timeout r = 10
    /\ req_headers r
       = [ ("PIONEX-KEY", PIONEX_API_KEY cfg);
           ("PIONEX-SIGNATURE",
            signature_of cfg method endpoint (build_query_string params)
              (match body with
               | Some (f :: fs) => json_dumps lib compact_separators (JObj (f :: fs))
               | _ => ""
               end) (clock w (readings s)));
           ("Content-Type", "application/json") ]
    /\ (method = "GET" -> req_json r = None)
    /\ (method <> "GET" -> req_json r = body).
Proof.
  intros Hc Hm.
  assert (Hf : forwarded method = true)
    by (destruct Hm as [->|[->| ->]]; reflexivity).
  rewrite (server_pionex_request_run _ _ _ _ _ _ _ _ Hc Hf).
  cbn [snd after_call calls]. eexists. split; [reflexivity|].
  cbn [upstream_request req_method req_timeout req_headers req_json].
  split; [reflexivity|]. split; [reflexivity|]. split.
  - unfold request_headers, Server.body_str. now destruct body as [[|f fs]|].
  - split.
    + intros ->. reflexivity.
    + intros Hne. apply String.eqb_neq in Hne. now rewrite Hne.
Qed.

Lemma X7_witness :
  credentials_missing example_cfg = false
  /\ exists r,
      calls (snd (Server.pionex_request example_cfg example_lib
                    (example_world (HttpReply 200 "{}")) "GET"
                    "/api/v1/futures/positions" None
                    (Some [("symbol", JStr "BTC_USDT_PERP")]) initial_state))
      = ([] ++ [r])%list
      /\ req_method r = "GET"
      /\ req_json r = None.
Proof.
  split; [reflexivity|].
  destruct (X7_server_request_shape example_cfg example_lib
              (example_world (HttpReply 200 "{}")) "GET"
              "/api/v1/futures/positions" None
              (Some [("symbol", JStr "BTC_USDT_PERP")]) initial_state
              eq_refl (or_introl eq_refl))
    as [r [Hcalls [Hmethod [_ [_ [Hget _]]]]]].
  exists r. split; [exact Hcalls|]. split; [exact Hmethod|]. exact (Hget eq_refl).
Defined.

(** ** The proxied routes of [server.py] *)

Lemma history_query (args : list (string * string)) :
  build_query_string (Some (Server.with_symbol args [("limit", Server.limit_arg args)]))
  = "limit=" ++ limit_text args
    ++ match symbol_of args with
       | Some symbol => "&symbol=" ++ symbol
       | None => ""
       end.
Proof.
  unfold Server.with_symbol, Server.limit_arg, limit_text, symbol_of.
  destruct (dict_get String.eqb args "limit") as [v|];
    destruct (dict_get String.eqb args "symbol") as [[|c rest]|];
    cbn; rewrite ?append_assoc, ?append_empty_r; reflexivity.
Qed.

Lemma server_route_run cfg lib w endpoint params s :
  credentials_missing cfg = false ->
  (result <- Server.pionex_request cfg lib w "GET" endpoint params None ;;
   ret (Server.jsonify_result result)) s
  = (let r := route_request cfg endpoint (build_query_string params)
                            (clock w (readings s)) in
     (Server.jsonify_result
        (Server.receive lib (upstream w (List.length (calls s)) r)),
      after_call s r)).
Proof.
  intros Hc. unfold bind.
  rewrite (server_pionex_request_run cfg lib w "GET" endpoint params None s Hc eq_refl).
  reflexivity.
Qed.

(** X8. The three history routes of [server.py]
    ([/api/futures/positions/history], [/api/futures/orders/history],
    [/api/futures/funding]) ask the upstream, with credentials set, for
    [limit={limit}] then [symbol={symbol}]: the limit is the request's
    [limit] argument as given, 100 when the request has none; the symbol
    is passed only when the request has a non-empty one.  Each makes that
    one [GET] and nothing else. *)
Theorem X8_history_routes_query
        (cfg : Config) (lib : JsonLib) (w : World)
        (args : list (string * string)) (s : State) :
  credentials_missing cfg = false ->
  let query := "limit=" ++ limit_text args
               ++ match symbol_of args with
                  | Some symbol => "&symbol=" ++ symbol
                  | None => ""
                  end in
  let ts := clock w (readings s) in
  snd (Server.get_position_history cfg lib w args s)
  = after_call s (route_request cfg "/api/v1/futures/positions/history" query ts)
  /\ snd (Server.get_order_history cfg lib w args s)
     = after_call s (route_request cfg "/api/v1/futures/orders/history" query ts)
  /\ snd (Server.get_funding_fees cfg lib w args s)
     = after_call s (route_request cfg "/api/v1/futures/funding" query ts)
  /\ req_url (route_request cfg "/api/v1/futures/funding" query ts)
     = "https://api.pionex.com/api/v1/futures/funding?" ++ query
       ++ "&timestamp=" ++ str_of_int ts.
Proof.
  intros Hc query ts.
  unfold Server.get_position_history, Server.get_order_history,
    Server.get_funding_fees.
  rewrite !(server_route_run _ _ _ _ _ _ Hc), !history_query.
  repeat split.
Qed.

Lemma X8_witness :
  let args := [("symbol", ""); ("page", "2")] in
  credentials_missing example_cfg = false
  /\ limit_text args = "100"
  /\ symbol_of args = None
  /\ calls (snd (Server.get_funding_fees example_cfg example_lib
                   (example_world (HttpReply 200 "{}")) args initial_state))
     = [ route_request example_cfg "/api/v1/futures/funding" "limit=100"
           1700000000000 ].
Proof.
  intros args.
  destruct (X8_history_routes_query example_cfg example_lib
              (example_world (HttpReply 200 "{}")) args initial_state eq_refl)
    as [_ [_ [Hfunding _]]].
  split; [reflexivity|]. split; [reflexivity|]. split; [reflexivity|].
  rewrite Hfunding. reflexivity.
Defined.

Lemma orders_query (args : list (string * string)) :
  build_query_string (Some (Server.with_symbol args []))
  = match symbol_of args with
    | Some symbol => "symbol=" ++ symbol
    | None => ""
    end.
Proof.
  unfold Server.with_symbol, symbol_of.
  destruct (dict_get String.eqb args "symbol") as [[|c rest]|];
    cbn; rewrite ?append_empty_r; reflexivity.
Qed.

Lemma tickers_query (args : list (string * string)) :
  build_query_string (Some (Server.with_symbol args [("type", PStr "PERP")]))
  = match symbol_of args with
    | Some symbol => "symbol=" ++ symbol ++ "&type=PERP"
    | None => "type=PERP"
    end.
Proof.
  unfold Server.with_symbol, symbol_of.
  destruct (dict_get String.eqb args "symbol") as [[|c rest]|];
    cbn; rewrite ?append_assoc, ?append_empty_r; reflexivity.
Qed.

(** X9. With credentials set, the other proxied routes of [server.py] ask
    the upstream as follows.  [/api/futures/orders] passes [symbol] when
    the request has a non-empty one and no parameter otherwise;
    [/api/market/tickers] passes [type=PERP], preceded by [symbol] when
    there is one ([symbol] sorts before [type]); [/api/market/price/{symbol}]
    passes the symbol of the path as it is; [/api/futures/balance] passes
    [type=PERP]; [/api/futures/positions] passes nothing. *)
Theorem X9_other_routes_query
        (cfg : Config) (lib : JsonLib) (w : World)
        (args : list (string * string)) (symbol : string) (s : State) :
  credentials_missing cfg = false ->
  let ts := clock w (readings s) in
  snd (Server.get_futures_orders cfg lib w args s)
  = after_call s
      (route_request cfg "/api/v1/futures/orders"
         (match symbol_of args with
          | Some symbol => "symbol=" ++ symbol
          | None => ""
          end) ts)
  /\ snd (Server.get_tickers cfg lib w args s)
     = after_call s
         (route_request cfg "/api/v1/common/symbols"
            (match symbol_of args with
             | Some symbol => "symbol=" ++ symbol ++ "&type=PERP"
             | None => "type=PERP"
             end) ts)
  /\ snd (Server.get_price cfg lib w symbol s)
     = after_call s
         (route_request cfg "/api/v1/market/ticker" ("symbol=" ++ symbol) ts)
  /\ snd (Server.get_futures_balance cfg lib w s)
     = after_call s (route_request cfg "/api/v1/account/balances" "type=PERP" ts)
  /\ snd (Server.get_futures_positions cfg lib w s)
     = after_call s (route_request cfg "/api/v1/futures/positions" "" ts).
Proof.
  intros Hc ts.
  unfold Server.get_futures_orders, Server.get_tickers, Server.get_price,
    Server.get_futures_balance, Server.get_futures_positions.
  rewrite !(server_route_run _ _ _ _ _ _ Hc), orders_query, tickers_query.
  cbn [snd]. repeat split.
Qed.

Lemma X9_witness :
  let args := [("symbol", "BTC_USDT_PERP")] in
  credentials_missing example_cfg = false
  /\ req_url (route_request example_cfg "/api/v1/common/symbols"
                "symbol=BTC_USDT_PERP&type=PERP" 1700000000000)
     = "https://api.pionex.com/api/v1/common/symbols?symbol=BTC_USDT_PERP&type=PERP&timestamp=1700000000000"
  /\ calls (snd (Server.get_tickers example_cfg example_lib
                   (example_world (HttpReply 200 "{}")) args initial_state))
     = [ route_request example_cfg "/api/v1/common/symbols"
           "symbol=BTC_USDT_PERP&type=PERP" 1700000000000 ].
Proof.
  intros args.
  destruct (X9_other_routes_query example_cfg example_lib
              (example_world (HttpReply 200 "{}")) args "" initial_state eq_refl)
    as [_ [Htickers _]].
  split; [reflexivity|]. split; [reflexivity|].
  rewrite Htickers. reflexivity.
Defined.



(** ** More on the bot store *)

Lemma post_stores w fields name s :
  dict_get String.eqb fields "name" = Some (JStr name) ->
  name <> "" ->
  Server.update_bot w (JObj fields) s
  = (Returned (200, JObj [ ("result", JBool true);
                           ("data", Server.bot_record fields (JStr name)
                                      (clock w (readings s))) ]),
     {| readings := S (readings s); calls := calls s;
        MANUAL_BOT_DATA :=
          dict_set pykey_eqb (MANUAL_BOT_DATA s) (KStr name)
            (Server.bot_record fields (JStr name) (clock w (readings s))) |}).
Proof.
  intros Hf Hne.
  assert (Hget : get_default fields "name" JNull = JStr name)
    by now apply get_default_found.
  assert (Ht : truthy (get_default fields "name" JNull) = true).
  { rewrite Hget. destruct name; [contradiction|reflexivity]. }
  assert (Hk : hash_key (get_default fields "name" JNull) = Some (KStr name))
    by now rewrite Hget.
  pose proof (update_bot_stored w fields s _ Ht Hk) as Hr.
  now rewrite Hget in Hr.
Qed.

Section MoreDictFacts.
Context {K V : Type} (eqb : K -> K -> bool).
Hypothesis eqb_eq : forall a b, eqb a b = true <-> a = b.

Lemma dict_set_new (d : list (K * V)) (k : K) (v : V) :
  dict_mem eqb d k = false -> dict_set eqb d k v = (d ++ [(k, v)])%list.
Proof.
  unfold dict_mem. induction d as [|[k' v'] d IH]; simpl; [reflexivity|].
  destruct (eqb k k'); [discriminate|]. intros H. now rewrite IH.
Qed.

Lemma dict_set_in_place (d : list (K * V)) (k : K) (v : V) :
  NoDup (dict_keys d) ->
  dict_mem eqb d k = true ->
  dict_set eqb d k v
  = map (fun kv => if eqb k (fst kv) then (fst kv, v) else kv) d.
Proof.
  unfold dict_mem, dict_keys.
  induction d as [|[k' v'] d IH]; simpl; [discriminate|].
  intros Hnd Hmem. inversion Hnd as [|? ? Hnotin Hnd']; subst.
  destruct (eqb k k') eqn:E.
  - f_equal. apply eqb_eq in E. subst k'.
    clear IH Hmem Hnd Hnd'. induction d as [|[k0 v0] d IHd]; [reflexivity|].
    simpl in *. destruct (eqb k k0) eqn:E0.
    + exfalso. apply Hnotin. left. symmetry. now apply eqb_eq.
    + f_equal. apply IHd. tauto.
  - f_equal. now apply IH.
Qed.

Lemma dict_del_after_append (d : list (K * V)) (k : K) (v : V) :
  dict_mem eqb d k = false -> dict_del eqb (d ++ [(k, v)]) k = d.
Proof.
  unfold dict_mem. induction d as [|[k' v'] d IH]; simpl.
  - intros _. now rewrite (eqb_same eqb eqb_eq).
  - destruct (eqb k k'); [discriminate|]. intros H. now rewrite IH.
Qed.
End MoreDictFacts.

(** X11. A [POST /api/bots] with a name (a non-empty string) that is not
    in the store appends: the store is the old store followed by the new
    entry, and [GET /api/bots] lists the bots it listed before, in the same
    order, followed by the new record. *)
Theorem X11_post_of_new_name_appends
        (w : World) (fields : list (string * json)) (name : string) (s : State) :
  dict_get String.eqb fields "name" = Some (JStr name) ->
  name <> "" ->
  dict_mem pykey_eqb (MANUAL_BOT_DATA s) (KStr name) = false ->
  let s' := snd (Server.update_bot w (JObj fields) s) in
  let record := Server.bot_record fields (JStr name) (clock w (readings s)) in
  MANUAL_BOT_DATA s' = (MANUAL_BOT_DATA s ++ [(KStr name, record)])%list
  /\ bots_of (fst (Server.get_bots s'))
     = (bots_of (fst (Server.get_bots s)) ++ [record])%list.
Proof.
  intros Hf Hne Hnew s' record. subst s'.
  rewrite (post_stores w fields name s Hf Hne). cbn [snd].
  rewrite !get_bots_run. unfold bots_of. cbn.
  rewrite (dict_set_new pykey_eqb _ _ _ Hnew).
  split; [reflexivity|]. unfold dict_values. now rewrite map_app.
Qed.

Lemma X11_witness :
  let w := example_world (NetError "unused") in
  let s1 := snd (Server.update_bot w (JObj [("name", JStr "bot0")]) initial_state) in
  dict_get String.eqb bot1_payload "name" = Some (JStr "bot1")
  /\ "bot1" <> ""
  /\ dict_mem pykey_eqb (MANUAL_BOT_DATA s1) (KStr "bot1") = false
  /\ dict_keys (MANUAL_BOT_DATA (snd (Server.update_bot w (JObj bot1_payload) s1)))
     = [KStr "bot0"; KStr "bot1"].
Proof.
  intros w s1.
  assert (Hne : "bot1" <> "") by discriminate.
  destruct (X11_post_of_new_name_appends w bot1_payload "bot1" s1
              eq_refl Hne eq_refl) as [Hstore _].
  split; [reflexivity|]. split; [exact Hne|]. split; [reflexivity|].
  rewrite Hstore. reflexivity.
Defined.

(** X12. A [POST /api/bots] with a name that is in the store replaces the
    record where it stands: the entries keep their keys and their order,
    the entry of that name gets the new record, and every other entry keeps
    its record. *)
Theorem X12_post_of_known_name_replaces_in_place
        (w : World) (fields : list (string * json)) (name : string) (s : State) :
  NoDup (dict_keys (MANUAL_BOT_DATA s)) ->
  dict_get String.eqb fields "name" = Some (JStr name) ->
  name <> "" ->
  dict_mem pykey_eqb (MANUAL_BOT_DATA s) (KStr name) = true ->
  let s' := snd (Server.update_bot w (JObj fields) s) in
  let record := Server.bot_record fields (JStr name) (clock w (readings s)) in
  MANUAL_BOT_DATA s'
  = map (fun kv => if pykey_eqb (KStr name) (fst kv) then (fst kv, record) else kv)
        (MANUAL_BOT_DATA s)
  /\ dict_keys (MANUAL_BOT_DATA s') = dict_keys (MANUAL_BOT_DATA s)
  /\ (forall k, k <> KStr name ->
        dict_get pykey_eqb (MANUAL_BOT_DATA s') k
        = dict_get pykey_eqb (MANUAL_BOT_DATA s) k).
Proof.
  intros Hnd Hf Hne Hmem s' record. subst s'.
  rewrite (post_stores w fields name s Hf Hne). cbn [snd MANUAL_BOT_DATA].
  split; [now apply (dict_set_in_place _ pykey_eqb_eq)|]. split.
  - now rewrite (dict_keys_set pykey_eqb), Hmem.
  - intros k Hk. now apply (dict_get_set_other _ pykey_eqb_eq).
Qed.

Lemma X12_witness :
  let w := example_world (NetError "unused") in
  let s2 := run_all example_cfg example_lib w
              [ PostBot (JObj bot1_payload); PostBot (JObj [("name", JStr "bot2")]) ]
              initial_state in
  NoDup (dict_keys (MANUAL_BOT_DATA s2))
  /\ dict_get String.eqb bot1_update "name" = Some (JStr "bot1")
  /\ "bot1" <> ""
  /\ dict_mem pykey_eqb (MANUAL_BOT_DATA s2) (KStr "bot1") = true
  /\ dict_keys (MANUAL_BOT_DATA (snd (Server.update_bot w (JObj bot1_update) s2)))
     = [KStr "bot1"; KStr "bot2"].
Proof.
  intros w s2.
  assert (Hnd : NoDup (dict_keys (MANUAL_BOT_DATA s2))).
  { repeat constructor; simpl; intuition discriminate. }
  assert (Hne : "bot1" <> "") by discriminate.
  destruct (X12_post_of_known_name_replaces_in_place w bot1_update "bot1" s2
              Hnd eq_refl Hne eq_refl) as [_ [Hkeys _]].
  split; [exact Hnd|]. split; [reflexivity|]. split; [exact Hne|].
  split; [reflexivity|]. rewrite Hkeys. reflexivity.
Defined.

(** X13. Posting a name that is not in the store and then deleting it
    gives the store back as it was: the delete answers 200 with
    [result:true] and the entries are those from before the post. *)
Theorem X13_post_then_delete_restores_the_store
        (w : World) (fields : list (string * json)) (name : string) (s : State) :
  dict_get String.eqb fields "name" = Some (JStr name) ->
  name <> "" ->
  dict_mem pykey_eqb (MANUAL_BOT_DATA s) (KStr name) = false ->
  let s1 := snd (Server.update_bot w (JObj fields) s) in
  fst (Server.delete_bot name s1) = (200, JObj [("result", JBool true)])
  /\ MANUAL_BOT_DATA (snd (Server.delete_bot name s1)) = MANUAL_BOT_DATA s.
Proof.
  intros Hf Hne Hnew s1. subst s1.
  rewrite (post_stores w fields name s Hf Hne). cbn [snd].
  rewrite delete_bot_present.
  - cbn [fst snd MANUAL_BOT_DATA]. split; [reflexivity|].
    rewrite (dict_set_new pykey_eqb _ _ _ Hnew).
    now apply (dict_del_after_append _ pykey_eqb_eq).
  - cbn [MANUAL_BOT_DATA]. unfold dict_mem.
    now rewrite (dict_get_set_same _ pykey_eqb_eq).
Qed.

Lemma X13_witness :
  let w := example_world (NetError "unused") in
  let s1 := snd (Server.update_bot w (JObj [("name", JStr "bot0")]) initial_state) in
  dict_get String.eqb bot1_payload "name" = Some (JStr "bot1")
  /\ "bot1" <> ""
  /\ dict_mem pykey_eqb (MANUAL_BOT_DATA s1) (KStr "bot1") = false
  /\ MANUAL_BOT_DATA
       (snd (Server.delete_bot "bot1"
               (snd (Server.update_bot w (JObj bot1_payload) s1))))
     = MANUAL_BOT_DATA s1.
Proof.
  intros w s1.
  assert (Hne : "bot1" <> "") by discriminate.
  destruct (X13_post_then_delete_restores_the_store w bot1_payload "bot1" s1
              eq_refl Hne eq_refl) as [_ Hstore].
  split; [reflexivity|]. split; [exact Hne|]. split; [reflexivity|].
  exact Hstore.
Defined.

(** X14. Deleting is idempotent: whatever the first
    [DELETE /api/bots/{name}] did, a second one for the same name answers
    404 "Bot not found" and changes nothing. *)
Theorem X14_second_delete_is_not_found (name : string) (s : State) :
  let s1 := snd (Server.delete_bot name s) in
  Server.delete_bot name s1 = ((404, JObj [("error", JStr "Bot not found")]), s1).
Proof.
  intros s1. apply delete_bot_absent. subst s1.
  destruct (dict_mem pykey_eqb (MANUAL_BOT_DATA s) (KStr name)) eqn:Hmem.
  - rewrite (delete_bot_present name s Hmem). cbn [snd MANUAL_BOT_DATA].
    unfold dict_mem. now rewrite (dict_get_del_same pykey_eqb).
  - now rewrite (delete_bot_absent name s Hmem).
Qed.

Lemma dict_get_in_values {K V : Type} (eqb : K -> K -> bool)
      (d : list (K * V)) (k : K) (v : V) :
  dict_get eqb d k = Some v -> In v (dict_values d).
Proof.
  unfold dict_values. induction d as [|[k' v'] d IH]; simpl; [discriminate|].
  destruct (eqb k k'); [intros H; inversion H; now left|].
  intros H. right. now apply IH.
Qed.

Lemma norm_num_not_str (m e : Z) (name : string) : norm_num m e <> KStr name.
Proof.
  unfold norm_num. destruct m as [|p|p]; try discriminate;
    destruct (strip2 p e); discriminate.
Qed.

Lemma run_keeps_other_keys cfg lib w op s k :
  not_a_post op = true ->
  (forall name, k <> KStr name) ->
  dict_get pykey_eqb (MANUAL_BOT_DATA (run cfg lib w s op)) k
  = dict_get pykey_eqb (MANUAL_BOT_DATA s) k.
Proof.
  intros Hop Hk. destruct op as [|data|name|method endpoint params body];
    try discriminate; cbn [run].
  - reflexivity.
  - destruct (dict_mem pykey_eqb (MANUAL_BOT_DATA s) (KStr name)) eqn:Hmem.
    + rewrite (delete_bot_present name s Hmem). cbn [snd MANUAL_BOT_DATA].
      apply (dict_get_del_other _ pykey_eqb_eq). apply Hk.
    + now rewrite (delete_bot_absent name s Hmem).
  - now rewrite pionex_request_keeps_store.
Qed.

Lemma run_all_keeps_other_keys cfg lib w ops k :
  forallb not_a_post ops = true ->
  (forall name, k <> KStr name) ->
  forall s, dict_get pykey_eqb (MANUAL_BOT_DATA (run_all cfg lib w ops s)) k
            = dict_get pykey_eqb (MANUAL_BOT_DATA s) k.
Proof.
  unfold run_all. intros Hops Hk.
  induction ops as [|op ops IH]; intros s; [reflexivity|].
  simpl in Hops. apply andb_true_iff in Hops. destruct Hops as [Hop Hops].
  cbn [fold_left]. rewrite (IH Hops). now apply run_keeps_other_keys.
Qed.

(** X15. A bot posted with a number as [name] is stored under a numeric
    key, and the delete route, whose name is a string, never reaches it:
    after any sequence of [GET /api/bots], [DELETE /api/bots/{name}] and
    proxied requests the record is still in the store and still listed. *)
Theorem X15_numeric_name_cannot_be_deleted
        (cfg : Config) (lib : JsonLib) (w : World)
        (fields : list (string * json)) (n : Z) (ops : list operation) (s : State) :
  dict_get String.eqb fields "name" = Some (JInt n) ->
  n <> 0 ->
  forallb not_a_post ops = true ->
  let s1 := snd (Server.update_bot w (JObj fields) s) in
  let s2 := run_all cfg lib w ops s1 in
  let record := Server.bot_record fields (JInt n) (clock w (readings s)) in
  fst (Server.update_bot w (JObj fields) s)
  = Returned (200, JObj [("result", JBool true); ("data", record)])
  /\ In record (bots_of (fst (Server.get_bots s1)))
  /\ In record (bots_of (fst (Server.get_bots s2))).
Proof.
  intros Hf Hn Hops s1 s2 record.
  assert (Hget : get_default fields "name" JNull = JInt n)
    by now apply get_default_found.
  assert (Ht : truthy (get_default fields "name" JNull) = true).
  { rewrite Hget. simpl. now apply negb_true_iff, Z.eqb_neq. }
  assert (Hk : hash_key (get_default fields "name" JNull) = Some (norm_num n 0))
    by now rewrite Hget.
  pose proof (update_bot_stored w fields s _ Ht Hk) as Hrun.
  rewrite Hget in Hrun. cbv zeta in Hrun. fold record in Hrun.
  assert (H1 : dict_get pykey_eqb (MANUAL_BOT_DATA s1) (norm_num n 0) = Some record).
  { subst s1. rewrite Hrun. cbn [snd MANUAL_BOT_DATA].
    apply (dict_get_set_same _ pykey_eqb_eq). }
  assert (H2 : dict_get pykey_eqb (MANUAL_BOT_DATA s2) (norm_num n 0) = Some record).
  { subst s2. rewrite (run_all_keeps_other_keys _ _ _ _ _ Hops); [exact H1|].
    intros name. apply norm_num_not_str. }
  split; [now rewrite Hrun|].
  rewrite !get_bots_run. unfold bots_of. cbn.
  split; eapply dict_get_in_values; eassumption.
Qed.

Lemma X15_witness :
  let w := example_world (NetError "unused") in
  let fields := [("name", JInt 7); ("pair", JStr "BTCUSDT")] in
  let ops := [DeleteBot "7"; GetBots; DeleteBot "7.0"] in
  dict_get String.eqb fields "name" = Some (JInt 7)
  /\ 7 <> 0
  /\ forallb not_a_post ops = true
  /\ In (Server.bot_record fields (JInt 7) 1700000000000)
        (bots_of (fst (Server.get_bots
                         (run_all example_cfg example_lib w ops
                            (snd (Server.update_bot w (JObj fields) initial_state)))))).
Proof.
  intros w fields ops.
  assert (Hn : 7 <> 0) by lia.
  destruct (X15_numeric_name_cannot_be_deleted example_cfg example_lib w fields 7
              ops initial_state eq_refl Hn eq_refl) as [_ [_ Hin]].
  split; [reflexivity|]. split; [exact Hn|]. split; [reflexivity|]. exact Hin.
Defined.

(** X16. [POST /api/bots] does not validate the type of what it is given.
    A payload that is not a JSON object (an array, a string, a number,
    null) makes [update_bot] fail with [AttributeError] before anything is
    read or changed; an object whose [name] is a non-empty array or object
    makes it fail with [TypeError] when the record is assigned: the clock
    has been read, the store is unchanged. *)
Theorem X16_post_of_ill_typed_payload_raises
        (w : World) (data : json) (s : State) :
  ((forall fields, data <> JObj fields) ->
   Server.update_bot w data s = (Raised "AttributeError", s))
  /\ (forall fields,
         data = JObj fields ->
         (exists x xs, dict_get String.eqb fields "name" = Some (JArr (x :: xs)))
         \/ (exists f fs, dict_get String.eqb fields "name" = Some (JObj (f :: fs))) ->
         Server.update_bot w data s = (Raised "TypeError", after_reading s)).
Proof.
  split.
  - intros Hno. destruct data as [| b | n | m e | t | items | fields];
      try reflexivity. now destruct (Hno fields).
  - intros fields -> Hname.
    assert (H : exists v, get_default fields "name" JNull = v
                          /\ truthy v = true /\ hash_key v = None).
    { destruct Hname as [[x [xs Hx]]|[f [fs Hf]]]; eexists;
        (split; [eapply get_default_found; eassumption|split; reflexivity]). }
    destruct H as [v [Hv [Ht Hk]]].
    apply update_bot_unhashable; now rewrite Hv.
Qed.

Lemma X16_witness :
  let w := example_world (NetError "unused") in
  (forall fields, JArr [JStr "bot1"] <> JObj fields)
  /\ Server.update_bot w (JArr [JStr "bot1"]) initial_state
     = (Raised "AttributeError", initial_state)
  /\ dict_get String.eqb [("name", JArr [JStr "bot1"])] "name"
     = Some (JArr [JStr "bot1"])
  /\ Server.update_bot w (JObj [("name", JArr [JStr "bot1"])]) initial_state
     = (Raised "TypeError", after_reading initial_state).
Proof.
  intros w.
  assert (Hno : forall fields, JArr [JStr "bot1"] <> JObj fields) by discriminate.
  split; [exact Hno|]. split.
  { exact (proj1 (X16_post_of_ill_typed_payload_raises w (JArr [JStr "bot1"])
                    initial_state) Hno). }
  split; [reflexivity|].
  apply (proj2 (X16_post_of_ill_typed_payload_raises w
                  (JObj [("name", JArr [JStr "bot1"])]) initial_state)
               [("name", JArr [JStr "bot1"])] eq_refl).
  left. exists (JStr "bot1"), []. reflexivity.
Defined.

(** X17. The three bot routes never call the upstream: after any sequence
    of them the log of upstream calls is what it was.  [GET /api/bots]
    changes nothing at all, [DELETE] changes nothing but the store, and a
    [POST] reads the clock at most once. *)
Theorem X17_bot_routes_never_call_upstream
        (cfg : Config) (lib : JsonLib) (w : World) (ops : list operation) (s : State) :
  Forall (fun op => match op with Proxy _ _ _ _ => False | _ => True end) ops ->
  calls (run_all cfg lib w ops s) = calls s
  /\ (readings s <= readings (run_all cfg lib w ops s) <= readings s + List.length ops)%nat
  /\ (forallb not_a_post ops = true ->
      readings (run_all cfg lib w ops s) = readings s)
  /\ snd (Server.get_bots s) = s.
Proof.
  intros Hops.
  assert (Hstep : forall op st,
             match op with Proxy _ _ _ _ => False | _ => True end ->
             calls (run cfg lib w st op) = calls st
             /\ (readings st <= readings (run cfg lib w st op) <= S (readings st))%nat
             /\ (not_a_post op = true -> readings (run cfg lib w st op) = readings st)).
  { intros op st Hop. destruct op as [|data|name|method endpoint params body];
      [| | |contradiction]; cbn [run].
    - cbn. repeat split; intros; lia.
    - destruct data as [| b | n | m e | t | items | fields];
        try (cbn; repeat split; intros; (lia || discriminate)).
      destruct (truthy (get_default fields "name" JNull)) eqn:Ht.
      + destruct (hash_key (get_default fields "name" JNull)) as [k|] eqn:Hk.
        * rewrite (update_bot_stored w fields st k Ht Hk). cbn.
          repeat split; intros; (lia || discriminate).
        * rewrite (update_bot_unhashable w fields st Ht Hk). cbn.
          repeat split; intros; (lia || discriminate).
      + rewrite (update_bot_rejected w fields st Ht). cbn.
        repeat split; intros; (lia || discriminate).
    - destruct (dict_mem pykey_eqb (MANUAL_BOT_DATA st) (KStr name)) eqn:Hmem.
      + rewrite (delete_bot_present name st Hmem). cbn. repeat split; intros; lia.
      + rewrite (delete_bot_absent name st Hmem). cbn. repeat split; intros; lia. }
  split; [|split; [|split; [|reflexivity]]].
  - revert s. unfold run_all. induction Hops as [|op ops Hop _ IH]; intros s;
      [reflexivity|].
    cbn [fold_left]. rewrite IH. now apply Hstep.
  - revert s. unfold run_all. induction Hops as [|op ops Hop _ IH]; intros s;
      [simpl; lia|].
    cbn [fold_left List.length]. specialize (IH (run cfg lib w s op)).
    destruct (Hstep op s Hop) as [_ [Hr _]]. lia.
  - revert s. unfold run_all. induction Hops as [|op ops Hop _ IH]; intros s Hnp;
      [reflexivity|].
    simpl in Hnp. apply andb_true_iff in Hnp. destruct Hnp as [Hnp1 Hnp2].
    cbn [fold_left]. rewrite (IH _ Hnp2). now apply Hstep.
Qed.

Lemma X17_witness :
  let ops := [ PostBot (JObj bot1_payload); GetBots; DeleteBot "bot1";
               PostBot (JObj []) ] in
  let s' := run_all example_cfg example_lib (example_world (NetError "unused"))
              ops initial_state in
  Forall (fun op => match op with Proxy _ _ _ _ => False | _ => True end) ops
  /\ calls s' = [].
Proof.
  intros ops s'.
  assert (Hops : Forall (fun op => match op with
                                   | Proxy _ _ _ _ => False
                                   | _ => True
                                   end) ops)
    by (repeat constructor).
  split; [exact Hops|].
  exact (proj1 (X17_bot_routes_never_call_upstream example_cfg example_lib
                  (example_world (NetError "unused")) ops initial_state Hops)).
Defined.

(** ** The handler of [api/index.py] *)

Lemma handler_options cfg lib w path s :
  Index.handler cfg lib w path "OPTIONS" s
  = (Returned {| Index.statusCode := 200; Index.headers := Index.cors_headers;
                 Index.body := "" |}, s).
Proof. reflexivity. Qed.

Lemma handler_unknown cfg lib w path method s :
  method <> "OPTIONS" ->
  ~ In path routed_paths ->
  Index.handler cfg lib w path method s
  = (Returned (index_response lib 404 not_found), s).
Proof.
  intros Hm Hp. unfold Index.handler.
  apply String.eqb_neq in Hm. rewrite Hm.
  assert (H : forall p, In p routed_paths -> (path =? p)%string = false).
  { intros p Hin. apply String.eqb_neq. intros ->. contradiction. }
  unfold routed_paths in H.
  rewrite !H by (simpl; auto 20). reflexivity.
Qed.

Lemma handler_single_call cfg lib w path endpoint params method s :
  method <> "OPTIONS" ->
  In (path, (endpoint, params)) single_call_routes ->
  Index.handler cfg lib w path method s
  = (let (result, s') := Index.pionex_request cfg lib w "GET" endpoint params s in
     (Index.relay lib result, s')).
Proof.
  intros Hm Hin. unfold Index.handler.
  apply String.eqb_neq in Hm. rewrite Hm.
  unfold single_call_routes in Hin. simpl in Hin.
  destruct Hin as [H|[H|[H|[H|[]]]]]; inversion H; subst;
    cbn [String.eqb Ascii.eqb Bool.eqb orb]; reflexivity.
Qed.

(** X18. [handler] of [api/index.py] touches the state (clock, upstream)
    only for a request on one of the five proxy paths: a preflight
    ([OPTIONS], on any path), the health check, [/api/test] and any unknown
    path leave it as it was. *)
Theorem X18_handler_calls_upstream_only_on_proxy_paths
        (cfg : Config) (lib : JsonLib) (w : World) (path method : string) (s : State) :
  method = "OPTIONS" \/ ~ In path proxy_paths ->
  snd (Index.handler cfg lib w path method s) = s.
Proof.
  intros [->|Hp]; [reflexivity|].
  unfold Index.handler. destruct (method =? "OPTIONS")%string; [reflexivity|].
  assert (H : forall p, In p proxy_paths -> (path =? p)%string = false).
  { intros p Hin. apply String.eqb_neq. intros ->. contradiction. }
  unfold proxy_paths in H.
  rewrite (H "/api/futures/balance"), (H "/api/futures/positions"),
    (H "/api/balance"), (H "/api/balances"), (H "/api/futures/orders")
    by (simpl; auto 20).
  destruct ((path =? "/api")%string || (path =? "/api/")%string
            || (path =? "/api/health")%string); [reflexivity|].
  destruct (path =? "/api/test")%string; reflexivity.
Qed.

Lemma X18_witness :
  ~ In "/api/test" proxy_paths
  /\ snd (Index.handler example_cfg example_lib (example_world (NetError "down"))
            "/api/test" "GET" initial_state) = initial_state.
Proof.
  assert (Hp : ~ In "/api/test" proxy_paths)
    by (simpl; intuition discriminate).
  split; [exact Hp|].
  exact (X18_handler_calls_upstream_only_on_proxy_paths example_cfg example_lib
           (example_world (NetError "down")) "/api/test" "GET" initial_state
           (or_intror Hp)).
Defined.

(** X19. For a method other than [OPTIONS], a path that is not exactly one
    of the nine routed paths is answered 404 with
    [{"error": "Not found", "result": false}]: the match is on the whole
    string, so a trailing slash or a different case is not found. *)
Theorem X19_unknown_path_is_not_found
        (cfg : Config) (lib : JsonLib) (w : World) (path method : string) (s : State) :
  method <> "OPTIONS" ->
  ~ In path routed_paths ->
  Index.handler cfg lib w path method s
  = (Returned {| Index.statusCode := 404;
                 Index.headers := Index.cors_headers;
                 Index.body :=
                   json_dumps lib default_separators
                     (JObj [("error", JStr "Not found"); ("result", JBool false)]) |},
     s).
Proof.
  intros Hm Hp. unfold Index.handler.
  apply String.eqb_neq in Hm. rewrite Hm.
  assert (H : forall p, In p routed_paths -> (path =? p)%string = false).
  { intros p Hin. apply String.eqb_neq. intros ->. contradiction. }
  unfold routed_paths in H.
  rewrite !H by (simpl; auto 20). reflexivity.
Qed.

Lemma X19_witness :
  "GET" <> "OPTIONS"
  /\ ~ In "/api/health/" routed_paths
  /\ Index.statusCode
       (match fst (Index.handler example_cfg example_lib
                     (example_world (NetError "down")) "/api/health/" "GET"
                     initial_state) with
        | Returned r => r
        | Raised _ => index_response example_lib 0 JNull
        end) = 404.
Proof.
  assert (Hm : "GET" <> "OPTIONS") by discriminate.
  assert (Hp : ~ In "/api/health/" routed_paths)
    by (simpl; intuition discriminate).
  split; [exact Hm|]. split; [exact Hp|].
  now rewrite (X19_unknown_path_is_not_found example_cfg example_lib
                 (example_world (NetError "down")) "/api/health/" "GET"
                 initial_state Hm Hp).
Defined.

Lemma has_char_routed (path : string) :
  has_char "?" path = true -> ~ In path routed_paths.
Proof.
  intros Hq Hin. unfold routed_paths in Hin. simpl in Hin.
  repeat (destruct Hin as [<-|Hin]; [discriminate Hq|]). exact Hin.
Qed.

(** X20. [Handler.do_GET] hands [self.path] to [handler] as it is, query
    string included, and [handler] compares the whole of it: a [GET] whose
    target contains a [?] is answered 404 "Not found" without any upstream
    call, even when the part before the [?] is a routed path. *)
Theorem X20_get_with_query_string_is_not_found
        (cfg : Config) (lib : JsonLib) (w : World) (path query : string) (s : State) :
  Index.do_GET cfg lib w (path ++ "?" ++ query) s
  = (Returned
       {| Index.sent_status := 404;
          Index.sent_headers := Index.cors_headers;
          Index.sent_body :=
            encode_utf8
              (json_dumps lib default_separators
                 (JObj [("error", JStr "Not found"); ("result", JBool false)])) |},
     s).
Proof.
  unfold Index.do_GET, bind.
  rewrite handler_unknown; [reflexivity|discriminate|].
  apply has_char_routed.
  induction path as [|c path IH]; simpl in *; [reflexivity|].
  rewrite IH. apply orb_true_r.
Qed.

(** X21. [handler] looks at the method only to tell a preflight: two
    methods other than [OPTIONS] get the same answer and have the same
    effect on any path, so a [POST] or a [DELETE] to a proxy path makes
    the same upstream [GET] as a [GET] does. *)
Theorem X21_handler_ignores_the_method
        (cfg : Config) (lib : JsonLib) (w : World) (path m1 m2 : string) (s : State) :
  m1 <> "OPTIONS" -> m2 <> "OPTIONS" ->
  Index.handler cfg lib w path m1 s = Index.handler cfg lib w path m2 s
  /\ Index.main cfg lib w path m1 "" s = Index.handler cfg lib w path m2 s.
Proof.
  intros H1 H2. unfold Index.main, Index.handler.
  apply String.eqb_neq in H1, H2. rewrite H1, H2. split; reflexivity.
Qed.

Lemma X21_witness :
  "POST" <> "OPTIONS" /\ "GET" <> "OPTIONS"
  /\ calls (snd (Index.handler example_cfg example_lib
                   (example_world (HttpReply 200 "{}"))
                   "/api/futures/positions" "POST" initial_state))
     = calls (snd (Index.handler example_cfg example_lib
                     (example_world (HttpReply 200 "{}"))
                     "/api/futures/positions" "GET" initial_state)).
Proof.
  assert (H1 : "POST" <> "OPTIONS") by discriminate.
  assert (H2 : "GET" <> "OPTIONS") by discriminate.
  split; [exact H1|]. split; [exact H2|].
  now rewrite (proj1 (X21_handler_ignores_the_method example_cfg example_lib
                        (example_world (HttpReply 200 "{}"))
                        "/api/futures/positions" "POST" "GET" initial_state H1 H2)).
Defined.

(** X22. On the four paths of [handler] that make one upstream call, and
    for a method other than [OPTIONS], the answer relays what
    [pionex_request] returned: the status is 200 when that value is an
    object whose [result] is true (in Python's sense) and 400 when it is an
    object without such a [result], the body being the value serialised;
    when the upstream sent JSON that is not an object (an array, say)
    [handler] fails with [AttributeError] after the call was made.
    Without credentials the answer is 400 with the configuration error.
    An exception that escaped [pionex_request] escapes [handler]. *)
Theorem X22_single_call_route_relays_the_result
        (cfg : Config) (lib : JsonLib) (w : World)
        (path endpoint : string) (params : option (list (string * pyval)))
        (method : string) (s : State) :
  method <> "OPTIONS" ->
  In (path, (endpoint, params)) single_call_routes ->
  let result := fst (Index.pionex_request cfg lib w "GET" endpoint params s) in
  let s' := snd (Index.pionex_request cfg lib w "GET" endpoint params s) in
  (forall fields,
      result = Returned (JObj fields) ->
      Index.handler cfg lib w path method s
      = (Returned
           {| Index.statusCode :=
                if truthy (get_default fields "result" JNull) then 200 else 400;
              Index.headers := Index.cors_headers;
              Index.body := json_dumps lib default_separators (JObj fields) |}, s'))
  /\ (forall v,
        result = Returned v ->
        (forall fields, v <> JObj fields) ->
        Index.handler cfg lib w path method s = (Raised "AttributeError", s'))
  /\ (credentials_missing cfg = true ->
      Index.handler cfg lib w path method s
      = (Returned
           {| Index.statusCode := 400;
              Index.headers := Index.cors_headers;
              Index.body :=
                json_dumps lib default_separators
                  (JObj [ ("error", JStr "API credentials not configured");
                          ("result", JBool false) ]) |}, s))
  /\ (forall e,
        result = Raised e ->
        Index.handler cfg lib w path method s = (Raised e, s')).
Proof.
  intros Hm Hin result s'.
  rewrite (handler_single_call cfg lib w path endpoint params method s Hm Hin).
  subst result s'.
  destruct (Index.pionex_request cfg lib w "GET" endpoint params s) as [result s'] eqn:E.
  cbn [fst snd]. split; [|split; [|split]].
  - intros fields ->. reflexivity.
  - intros v -> Hno. destruct v as [| b | n | m e | t | items | fields];
      try reflexivity. now destruct (Hno fields).
  - intros Hc. rewrite index_pionex_request_unconfigured in E by exact Hc.
    inversion E. reflexivity.
  - intros e ->. reflexivity.
Qed.

Lemma X22_witness :
  let w := example_world (HttpReply 200 "[]") in
  let lib := {| json_loads := fun text =>
                  if (text =? "[]")%string then inl (JArr [])
                  else json_loads example_lib text;
                json_dumps := json_dumps example_lib |} in
  "GET" <> "OPTIONS"
  /\ In ("/api/balance", ("/api/v1/account/balances", None)) single_call_routes
  /\ fst (Index.pionex_request example_cfg lib w "GET"
            "/api/v1/account/balances" None initial_state) = Returned (JArr [])
  /\ (forall fields, JArr [] <> JObj fields)
  /\ fst (Index.handler example_cfg lib w "/api/balance" "GET" initial_state)
     = Raised "AttributeError"
  /\ credentials_missing no_secret_cfg = true
  /\ fst (Index.handler no_secret_cfg example_lib w "/api/balance" "GET" initial_state)
     = Returned (index_response example_lib 400
                   (JObj [ ("error", JStr "API credentials not configured");
                           ("result", JBool false) ])).
Proof.
  intros w lib.
  assert (Hm : "GET" <> "OPTIONS") by discriminate.
  assert (Hin : In ("/api/balance", ("/api/v1/account/balances", @None (list (string * pyval))))
                   single_call_routes) by (simpl; auto 10).
  assert (Hv : fst (Index.pionex_request example_cfg lib w "GET"
                      "/api/v1/account/balances" None initial_state)
               = Returned (JArr [])) by (vm_compute; reflexivity).
  assert (Hno : forall fields, JArr [] <> JObj fields) by discriminate.
  destruct (X22_single_call_route_relays_the_result example_cfg lib w
              "/api/balance" "/api/v1/account/balances" None "GET" initial_state
              Hm Hin) as [_ [Hraise _]].
  destruct (X22_single_call_route_relays_the_result no_secret_cfg example_lib w
              "/api/balance" "/api/v1/account/balances" None "GET" initial_state
              Hm Hin) as [_ [_ [Hmissing _]]].
  split; [exact Hm|]. split; [exact Hin|]. split; [exact Hv|]. split; [exact Hno|].
  split; [now rewrite (Hraise _ Hv Hno)|]. split; [reflexivity|].
  now rewrite (Hmissing eq_refl).
Defined.

(** X23. With credentials set, [/api/balances] calls the balances with
    [type=SPOT] and then, once that call has returned, with [type=PERP],
    each signed with its own clock reading.  When both calls return, the
    answer is 200 with [result:true], and what each gave, result or error
    envelope, stands under [spot] and [futures], neither depending on the
    other.  An exception that escapes a call (the error body that is not
    UTF-8) escapes [handler]: after the one call when it is the first,
    after both when it is the second. *)
Theorem X23_balances_makes_two_calls
        (cfg : Config) (lib : JsonLib) (w : World) (method : string) (s : State) :
  credentials_missing cfg = false ->
  method <> "OPTIONS" ->
  let n := List.length (calls s) in
  let spot := upstream_request cfg "GET" "/api/v1/account/balances" "type=SPOT"
                               "" None 10 (clock w (readings s)) in
  let perp := upstream_request cfg "GET" "/api/v1/account/balances" "type=PERP"
                               "" None 10 (clock w (S (readings s))) in
  let first := urllib_receive lib (upstream w n spot) in
  let second := urllib_receive lib (upstream w (S n) perp) in
  let after_both :=
    {| readings := S (S (readings s));
       calls := (calls s ++ [spot; perp])%list;
       MANUAL_BOT_DATA := MANUAL_BOT_DATA s |} in
  (forall a b,
      first = Returned a -> second = Returned b ->
      Index.handler cfg lib w "/api/balances" method s
      = (Returned
           {| Index.statusCode := 200;
              Index.headers := Index.cors_headers;
              Index.body :=
                json_dumps lib default_separators
                  (JObj [ ("result", JBool true);
                          ("spot", a);
                          ("futures", b) ]) |}, after_both))
  /\ (forall e,
        first = Raised e ->
        Index.handler cfg lib w "/api/balances" method s
        = (Raised e, after_call s spot))
  /\ (forall a e,
        first = Returned a -> second = Raised e ->
        Index.handler cfg lib w "/api/balances" method s = (Raised e, after_both)).
Proof.
  intros Hc Hm n spot perp first second after_both.
  assert (Hrun : Index.handler cfg lib w "/api/balances" method s
                 = match first with
                   | Raised e => (Raised e, after_call s spot)
                   | Returned a =>
                       match second with
                       | Raised e => (Raised e, after_both)
                       | Returned b =>
                           (Index.respond lib 200
                              (JObj [ ("result", JBool true);
                                      ("spot", a);
                                      ("futures", b) ]), after_both)
                       end
                   end).
  { unfold Index.handler.
    apply String.eqb_neq in Hm. rewrite Hm.
    cbn [String.eqb Ascii.eqb Bool.eqb orb]. unfold bind.
    rewrite (index_pionex_request_run cfg lib w "GET" "/api/v1/account/balances"
               (Some [("type", PStr "SPOT")]) s Hc).
    cbv zeta.
    change (build_query_string (Some [("type", PStr "SPOT")])) with "type=SPOT".
    fold n spot first.
    destruct first as [a|e]; [|reflexivity].
    rewrite (index_pionex_request_run cfg lib w "GET" "/api/v1/account/balances"
               (Some [("type", PStr "PERP")]) _ Hc).
    cbv zeta.
    change (build_query_string (Some [("type", PStr "PERP")])) with "type=PERP".
    unfold after_call. cbn [readings calls MANUAL_BOT_DATA].
    rewrite length_app, Nat.add_1_r, <- app_assoc.
    change (List.length (calls s)) with n. cbn [List.length]. fold perp second.
    unfold after_both. cbn [app]. now destruct second. }
  rewrite Hrun. split; [|split].
  - intros a b -> ->. reflexivity.
  - intros e ->. reflexivity.
  - intros a e -> ->. reflexivity.
Qed.

Lemma X23_witness :
  credentials_missing example_cfg = false
  /\ "GET" <> "OPTIONS"
  /\ urllib_receive example_lib (HttpReply 503 "busy")
     = Returned (JObj [("error", JStr "HTTP 503: busy"); ("result", JBool false)])
  /\ map req_url
       (calls (snd (Index.handler example_cfg example_lib
                      (example_world (HttpReply 503 "busy"))
                      "/api/balances" "GET" initial_state)))
     = [ "https://api.pionex.com/api/v1/account/balances?type=SPOT&timestamp=1700000000000";
         "https://api.pionex.com/api/v1/account/balances?type=PERP&timestamp=1700000000007" ]
  /\ urllib_receive example_lib (HttpReply 503 not_utf8) = Raised "UnicodeDecodeError"
  /\ Index.handler example_cfg example_lib (example_world (HttpReply 503 not_utf8))
       "/api/balances" "GET" initial_state
     = (Raised "UnicodeDecodeError",
        after_call initial_state
          (upstream_request example_cfg "GET" "/api/v1/account/balances"
             "type=SPOT" "" None 10 1700000000000)).
Proof.
  assert (Hm : "GET" <> "OPTIONS") by discriminate.
  destruct (X23_balances_makes_two_calls example_cfg example_lib
              (example_world (HttpReply 503 "busy")) "GET" initial_state
              eq_refl Hm) as [Hboth _].
  destruct (X23_balances_makes_two_calls example_cfg example_lib
              (example_world (HttpReply 503 not_utf8)) "GET" initial_state
              eq_refl Hm) as [_ [Hfirst _]].
  split; [reflexivity|]. split; [exact Hm|]. split; [reflexivity|].
  split; [rewrite (Hboth _ _ eq_refl eq_refl); reflexivity|].
  split; [reflexivity|].
  exact (Hfirst _ eq_refl).
Defined.

(** X24. The answers of the health check and of [/api/test] depend on the
    secret only through its being empty or not: two configurations with
    the same key whose secrets are both set (or both empty) get the same
    answer, so the secret itself never reaches these responses. *)
Theorem X24_secret_never_in_health_or_test
        (cfg1 cfg2 : Config) (lib : JsonLib) (w : World)
        (path method : string) (s : State) :
  PIONEX_API_KEY cfg1 = PIONEX_API_KEY cfg2 ->
  nonempty (PIONEX_API_SECRET cfg1) = nonempty (PIONEX_API_SECRET cfg2) ->
  In path ["/api"; "/api/"; "/api/health"; "/api/test"] ->
  Index.handler cfg1 lib w path method s = Index.handler cfg2 lib w path method s
  /\ Server.health_check cfg1 s = Server.health_check cfg2 s.
Proof.
  intros Hk Hs Hin. split.
  - unfold Index.handler. destruct (method =? "OPTIONS")%string; [reflexivity|].
    simpl in Hin.
    destruct Hin as [<-|[<-|[<-|[<-|[]]]]];
      cbn [String.eqb Ascii.eqb Bool.eqb orb]; now rewrite Hk, Hs.
  - unfold Server.health_check. now rewrite Hk, Hs.
Qed.

Lemma X24_witness :
  let other := {| PIONEX_API_KEY := "key-0001"; PIONEX_API_SECRET := "another" |} in
  PIONEX_API_KEY example_cfg = PIONEX_API_KEY other
  /\ nonempty (PIONEX_API_SECRET example_cfg) = nonempty (PIONEX_API_SECRET other)
  /\ In "/api/test" ["/api"; "/api/"; "/api/health"; "/api/test"]
  /\ Index.handler example_cfg example_lib (example_world (NetError "down"))
       "/api/test" "GET" initial_state
     = Index.handler other example_lib (example_world (NetError "down"))
         "/api/test" "GET" initial_state.
Proof.
  intros other.
  assert (Hin : In "/api/test" ["/api"; "/api/"; "/api/health"; "/api/test"])
    by (simpl; auto 10).
  split; [reflexivity|]. split; [reflexivity|]. split; [exact Hin|].
  exact (proj1 (X24_secret_never_in_health_or_test example_cfg other example_lib
                  (example_world (NetError "down")) "/api/test" "GET"
                  initial_state eq_refl eq_refl Hin)).
Defined.

(** X25. [do_GET] of [api/positions.py] answers 200 whenever it answers.
    Without credentials the body is the configuration error and nothing is
    called; with credentials it makes one [GET], with a timeout of 15, to
    [/api/v1/futures/positions?timestamp={ts}], and once
    [pionex_request] has returned the body is its serialised result or
    error envelope, so an upstream failure reaches the client under status
    200; an exception that escapes [pionex_request] escapes [do_GET],
    which then sends nothing. *)
Theorem X25_positions_answers_200_or_raises
        (cfg : Config) (lib : JsonLib) (w : World) (s : State) :
  (credentials_missing cfg = true ->
   Positions.do_GET cfg lib w s
   = (Returned (200, json_dumps lib default_separators
                       (JObj [ ("error", JStr "API credentials not configured");
                               ("result", JBool false) ])), s))
  /\ (credentials_missing cfg = false ->
      let r := upstream_request cfg "GET" "/api/v1/futures/positions" "" ""
                                None 15 (clock w (readings s)) in
      snd (Positions.do_GET cfg lib w s) = after_call s r
      /\ req_url r = "https://api.pionex.com/api/v1/futures/positions?timestamp="
                     ++ str_of_int (clock w (readings s))
      /\ (forall v,
            urllib_receive lib (upstream w (List.length (calls s)) r) = Returned v ->
            fst (Positions.do_GET cfg lib w s)
            = Returned (200, json_dumps lib default_separators v))
      /\ (forall e,
            urllib_receive lib (upstream w (List.length (calls s)) r) = Raised e ->
            fst (Positions.do_GET cfg lib w s) = Raised e))
  /\ (forall status text,
        fst (Positions.do_GET cfg lib w s) = Returned (status, text) ->
        status = 200).
Proof.
  unfold Positions.do_GET, bind.
  destruct (credentials_missing cfg) eqn:Hc.
  - rewrite positions_pionex_request_unconfigured by exact Hc.
    split; [reflexivity|]. split; [discriminate|].
    intros status text Heq. now inversion Heq.
  - rewrite (positions_pionex_request_run cfg lib w "/api/v1/futures/positions"
               None s Hc).
    cbv zeta. cbn [fst snd build_query_string String.concat].
    split; [discriminate|]. split.
    + intros _. split; [reflexivity|]. split; [reflexivity|].
      split; [intros v ->; reflexivity|intros e ->; reflexivity].
    + intros status text.
      destruct (urllib_receive lib _); intros Heq; now inversion Heq.
Qed.

Lemma X25_witness :
  credentials_missing no_secret_cfg = true
  /\ snd (Positions.do_GET no_secret_cfg example_lib
            (example_world (HttpReply 500 "oops")) initial_state) = initial_state
  /\ credentials_missing example_cfg = false
  /\ map req_timeout
       (calls (snd (Positions.do_GET example_cfg example_lib
                      (example_world (HttpReply 500 "oops")) initial_state)))
     = [15].
Proof.
  destruct (X25_positions_answers_200_or_raises no_secret_cfg example_lib
              (example_world (HttpReply 500 "oops")) initial_state)
    as [Hmissing _].
  destruct (X25_positions_answers_200_or_raises example_cfg example_lib
              (example_world (HttpReply 500 "oops")) initial_state)
    as [_ [Hset _]].
  destruct (Hset eq_refl) as [Hrun _].
  split; [reflexivity|]. split; [now rewrite (Hmissing eq_refl)|].
  split; [reflexivity|]. rewrite Hrun. reflexivity.
Defined.

(** X26. With credentials set, when the upstream answers with a status
    outside 2xx and a body that is not UTF-8, [pionex_request] of
    [api/index.py] and of [api/positions.py] does not return: the call has
    been made, and the [UnicodeDecodeError] raised while the error body is
    decoded escapes, through [do_GET] of [api/positions.py] as well. *)
Theorem X26_undecodable_error_body_escapes
        (cfg : Config) (lib : JsonLib) (w : World) (method endpoint : string)
        (params : option (list (string * pyval))) (s : State)
        (code : Z) (text : string) :
  credentials_missing cfg = false ->
  code < 200 \/ 300 <= code ->
  valid_utf8 text = false ->
  (forall r, upstream w (List.length (calls s)) r = HttpReply code text) ->
  (exists r,
      Index.pionex_request cfg lib w method endpoint params s
      = (Raised "UnicodeDecodeError", after_call s r))
  /\ (exists r,
         Positions.pionex_request cfg lib w endpoint params s
         = (Raised "UnicodeDecodeError", after_call s r))
  /\ fst (Positions.do_GET cfg lib w s) = Raised "UnicodeDecodeError".
Proof.
  intros Hc Hcode Hu Hreply.
  assert (H2 : is_2xx code = false).
  { unfold is_2xx. apply andb_false_iff.
    destruct Hcode; [left; apply Z.leb_gt|right; apply Z.ltb_ge]; lia. }
  split; [|split].
  - rewrite (index_pionex_request_run _ _ _ _ _ _ _ Hc).
    eexists. now rewrite Hreply, (urllib_receive_undecodable _ _ _ H2 Hu).
  - rewrite (positions_pionex_request_run _ _ _ _ _ _ Hc).
    eexists. now rewrite Hreply, (urllib_receive_undecodable _ _ _ H2 Hu).
  - unfold Positions.do_GET, bind.
    rewrite (positions_pionex_request_run _ _ _ _ _ _ Hc).
    cbv zeta. now rewrite Hreply, (urllib_receive_undecodable _ _ _ H2 Hu).
Qed.

Lemma X26_witness :
  credentials_missing example_cfg = false
  /\ (502 < 200 \/ 300 <= 502)
  /\ valid_utf8 not_utf8 = false
  /\ fst (Index.pionex_request example_cfg example_lib
            (example_world (HttpReply 502 not_utf8)) "GET"
            "/api/v1/futures/positions" None initial_state)
     = Raised "UnicodeDecodeError".
Proof.
  assert (Hcode : 502 < 200 \/ 300 <= 502) by (right; lia).
  destruct (X26_undecodable_error_body_escapes example_cfg example_lib
              (example_world (HttpReply 502 not_utf8)) "GET"
              "/api/v1/futures/positions" None initial_state 502 not_utf8
              eq_refl Hcode eq_refl (fun _ => eq_refl)) as [[r Hrun] _].
  split; [reflexivity|]. split; [exact Hcode|]. split; [reflexivity|].
  now rewrite Hrun.
Defined.
